(** * make-us-rich: pipeline registry, data module and serving loader

    A shallow embedding of the Python sources

    - [make_me_rich/pipeline_registry.py]
    - [make_me_rich/pipelines/training_model/pipeline.py]
    - [make_me_rich/pipelines/converting_to_onnx/pipeline.py]
    - [make_me_rich/pipelines/training_model/dataloader.py]
    - [serving/model_loader.py]

    Dictionaries are finite maps ([gmap]), Python strings are [string],
    methods that mutate [self] or talk to the object store are functions in
    a state-and-exception monad. *)

From Stdlib Require Import Ascii String ZArith DecimalString.
From stdpp Require Import base decidable option list sorting sets gmap strings fin_maps.

Local Open Scope string_scope.
Local Open Scope list_scope.

(** ** Kedro pipelines *)

Module Kedro.

(** [node(func=..., inputs=..., outputs=..., name=...)].  The function is kept
    by name; [outputs=None] is the empty list and a single string output is a
    one-element list. *)
Record Node := node {
  func : string;
  inputs : list string;
  outputs : list string;
  name : string;
}.

#[global] Instance Node_eq_dec : EqDecision Node.
Proof. solve_decision. Defined.

(** A pipeline, with its nodes in the order of kedro's [Pipeline.nodes]. *)
Record Pipeline := mkPipeline { nodes : list Node }.

#[global] Instance Pipeline_eq_dec : EqDecision Pipeline.
Proof. solve_decision. Defined.

(** Node [n] depends on node [m] when one of the inputs of [n] is an output
    of [m]. *)
Definition depends_on (n m : Node) : bool :=
  existsb (fun d => bool_decide (d ∈ outputs m)) (inputs n).

(** Kedro sorts nodes by their names first ([Node.__lt__]); the nodes of a
    pipeline it accepts have different names. *)
Definition node_le (n m : Node) : Prop := String.le (name n) (name m).

#[global] Instance node_le_dec : RelDecision node_le.
Proof. intros n m. unfold node_le. apply _. Defined.

(** [n] waits for no other node of [remaining]. *)
Definition ready (remaining : list Node) (n : Node) : Prop :=
  Forall (fun m => m = n ∨ depends_on n m = false) remaining.

#[global] Instance ready_dec remaining n : Decision (ready remaining n).
Proof. unfold ready. apply _. Defined.

(** The topological sort behind [Pipeline.nodes]: level after level, the
    nodes that wait for none of the remaining ones, each level sorted.  When
    no node is ready the dependencies are circular and kedro raises
    [CircularDependencyError]; here the remaining nodes form a last level. *)
Fixpoint toposort (fuel : nat) (remaining : list Node) : list (list Node) :=
  match fuel with
  | 0 => []
  | S fuel' =>
      match remaining with
      | [] => []
      | _ =>
          match filter (ready remaining) remaining with
          | [] => [merge_sort node_le remaining]
          | level =>
              merge_sort node_le level
              :: toposort fuel' (filter (fun n => ¬ ready remaining n) remaining)
          end
      end
  end.

(** [Pipeline([...])] for a list of nodes kedro accepts ([accepted] below):
    [nodes] lists them in topological order. *)
Definition Pipeline_new (ns : list Node) : Pipeline :=
  mkPipeline (concat (toposort (length ns) ns)).

(** [Pipeline.__add__]: [Pipeline(set(self.nodes + other.nodes))], the nodes
    of both operands, each once. *)
Definition pipeline_add (p q : Pipeline) : Pipeline :=
  Pipeline_new (remove_dups (nodes p ++ nodes q)).

(** An execution order respects the dependencies when no node depends on
    itself or on a node that is executed later. *)
Fixpoint topo_ok (order : list Node) : bool :=
  match order with
  | [] => true
  | n :: rest => forallb (fun m => negb (depends_on n m)) (n :: rest) && topo_ok rest
  end.

(** What [Pipeline(...)] asks of its nodes: no two of them share a name or
    an output, and the dependencies are not circular.  It raises for a list
    that fails one of these. *)
Definition accepted (ns : list Node) : Prop :=
  NoDup (name <$> ns)
  ∧ NoDup (ns ≫= outputs)
  ∧ topo_ok (concat (toposort (length ns) ns)) = true.

#[global] Instance accepted_dec ns : Decision (accepted ns).
Proof. unfold accepted. apply _. Defined.

(** A run of a pipeline executes every node of the pipeline once, in an
    order that respects the dependencies. *)
Definition is_run (p : Pipeline) (order : list Node) : Prop :=
  NoDup order ∧ order ⊆ nodes p ∧ nodes p ⊆ order ∧ topo_ok order = true.

#[global] Instance is_run_dec p order : Decision (is_run p order).
Proof. unfold is_run. apply _. Defined.

(** Position of the first occurrence of [n] in an execution order. *)
Fixpoint position (n : Node) (order : list Node) : option nat :=
  match order with
  | [] => None
  | m :: rest => if decide (m = n) then Some 0 else S <$> position n rest
  end.

(** [a] is executed, and [b] is executed later. *)
Definition executes_before (a b : Node) (order : list Node) : Prop :=
  ∃ i j, position a order = Some i ∧ position b order = Some j ∧ i < j.

End Kedro.

Import Kedro.

Declare Scope pipeline_scope.
Delimit Scope pipeline_scope with pipeline.
Infix "+" := pipeline_add : pipeline_scope.

(** ** [pipelines/training_model/pipeline.py] *)

Module TrainingModel.

Definition training_model_node : Node :=
  node "training_loop"
       ["train_sequences"; "val_sequences"; "test_sequences"; "params:training"]
       []
       "training_model_node".

Definition create_pipeline : Pipeline :=
  Pipeline_new [training_model_node].

End TrainingModel.

(** ** [pipelines/converting_to_onnx/pipeline.py] *)

Module ConvertingToOnnx.

Definition converting_model_node : Node :=
  node "convert_model"
       ["train_sequences"; "val_sequences"; "test_sequences";
        "params:training"; "params:dir_path"; "training_done"]
       ["conversion_done"; "input_sample"]
       "converting_model_node".

Definition validating_model_node : Node :=
  node "validate_model"
       ["params:dir_path"; "conversion_done"; "input_sample"]
       ["validation_done"]
       "validating_model_node".

Definition create_pipeline : Pipeline :=
  Pipeline_new [converting_model_node; validating_model_node].

End ConvertingToOnnx.

(** ** [pipeline_registry.py] *)

Module PipelineRegistry.

Section Registry.

(** [fd.create_pipeline()] and [pd.create_pipeline()]: the fetching and the
    preprocessing pipelines, which live in packages of their own. *)
Variable fd_create_pipeline : Pipeline.
Variable pd_create_pipeline : Pipeline.

Definition register_pipelines : gmap string Pipeline :=
  let fetching_data_pipeline := fd_create_pipeline in
  let preprocessing_data_pipeline := pd_create_pipeline in
  let training_model_pipeline := TrainingModel.create_pipeline in
  let converting_to_onnx_pipeline := ConvertingToOnnx.create_pipeline in
  <["converting_to_onnx" := converting_to_onnx_pipeline]>
  (<["training_model" := training_model_pipeline]>
  (<["preprocessing_data" := preprocessing_data_pipeline]>
  (<["fetching_data" := fetching_data_pipeline]>
  (<["__default__" :=
      (fetching_data_pipeline + preprocessing_data_pipeline
       + training_model_pipeline + converting_to_onnx_pipeline)%pipeline]> ∅)))).

End Registry.

End PipelineRegistry.

(** ** Python values used by the data module and the loader *)

Module Py.

Inductive exn :=
  | ValueError (msg : string)
  | IndexError (msg : string)
  | KeyError (key : string)
  | AttributeError (attr : string)
  | FileNotFoundError (path : string)
  | FileExistsError (path : string)
  | NotADirectoryError (path : string)
  | S3Error (code : string).

(** The outcome of a call: an exception or a value. *)
Definition result (A : Type) : Type := exn + A.

(** [s.split(sep)] for a separator of one character: the pieces between the
    occurrences of [sep], one more than there are occurrences. *)
Fixpoint split (sep : ascii) (s : string) : list string :=
  match s with
  | EmptyString => [EmptyString]
  | String c rest =>
      if Ascii.eqb c sep then EmptyString :: split sep rest
      else match split sep rest with
           | [] => [String c EmptyString]
           | piece :: pieces => String c piece :: pieces
           end
  end.

(** Number of occurrences of a character: [s.count(c)]. *)
Fixpoint count (c : ascii) (s : string) : nat :=
  match s with
  | EmptyString => 0
  | String a rest => (if Ascii.eqb a c then 1 else 0) + count c rest
  end.

(** [xs[i]] *)
Definition index {A} (xs : list A) (i : nat) : result A :=
  match xs !! i with
  | Some x => inr x
  | None => inl (IndexError "list index out of range")
  end.

(** [a, b = xs] *)
Definition unpack2 {A} (xs : list A) : result (A * A) :=
  match xs with
  | [a; b] => inr (a, b)
  | [] => inl (ValueError "not enough values to unpack (expected 2, got 0)")
  | [_] => inl (ValueError "not enough values to unpack (expected 2, got 1)")
  | _ => inl (ValueError "too many values to unpack (expected 2)")
  end.

(** [str(z)] for an integer, as an f-string or [format] prints it. *)
Definition str_int (z : Z) : string := NilZero.string_of_int (Z.to_int z).

(** The calendar part of a [datetime]; the time of day plays no role in the
    format used here. *)
Record datetime := { year : nat; month : nat; day : nat }.

Definition digit (n : nat) : ascii := ascii_of_nat (48 + n mod 10).

(** The last [width] decimal digits of [n], padded with zeros on the left. *)
Fixpoint zero_padded (width n : nat) : string :=
  match width with
  | 0 => EmptyString
  | S w => zero_padded w (n / 10) +:+ String (digit n) EmptyString
  end.

(** [dt.strftime("%Y-%m-%d")]: four digits of year, two of month, two of
    day, as documented for the years 1000 to 9999 a running clock shows. *)
Definition strftime_Ymd (dt : datetime) : string :=
  zero_padded 4 (year dt) +:+ "-" +:+ zero_padded 2 (month dt) +:+ "-" +:+ zero_padded 2 (day dt).

End Py.

Import Py.

(** ** [pipelines/training_model/dataloader.py] *)

Module DataModule.

(** A [torch.utils.data.DataLoader] with the settings the data module
    gives it. *)
Record DataLoader (Dataset : Type) := mkDataLoader {
  dataset : Dataset;
  batch_size : Z;
  shuffle : bool;
  num_workers : Z;
}.
Arguments mkDataLoader {Dataset}.
Arguments dataset {Dataset}.
Arguments batch_size {Dataset}.
Arguments shuffle {Dataset}.
Arguments num_workers {Dataset}.

(** The constructor of the loader: it refuses a negative number of workers,
    then a batch size that is not positive, each with a [ValueError]. *)
Definition DataLoader_new {Dataset} (ds : Dataset) (batch_size : Z) (shuffle : bool)
    (num_workers : Z) : result (DataLoader Dataset) :=
  if (num_workers <? 0)%Z then
    inl (ValueError ("num_workers option should be non-negative; "
                     +:+ "use num_workers=0 to disable multiprocessing."))
  else if (batch_size <=? 0)%Z then
    inl (ValueError ("batch_size should be a positive integer value, "
                     +:+ "but got batch_size=" +:+ str_int batch_size))
  else inr (mkDataLoader ds batch_size shuffle num_workers).

(** The order in which a loader visits the indices of a dataset of [len]
    elements: [0, 1, ..., len - 1] without shuffling, and a rearrangement
    [perm] drawn by the random sampler with it. *)
Definition sampler (perm : list nat → list nat) (len : nat) (shuffled : bool) : list nat :=
  if shuffled then perm (seq 0 len) else seq 0 len.

(** Consecutive batches of [size] indices, the last one possibly shorter. *)
Fixpoint batched (fuel size : nat) (indices : list nat) : list (list nat) :=
  match fuel with
  | 0 => []
  | S fuel' =>
      match indices with
      | [] => []
      | _ => take size indices :: batched fuel' size (drop size indices)
      end
  end.

(** The batches of indices a loader yields over a dataset of [len] elements. *)
Definition batches {Dataset} (perm : list nat → list nat) (len : nat)
    (dl : DataLoader Dataset) : list (list nat) :=
  batched len (Z.to_nat (batch_size dl)) (sampler perm len (shuffle dl)).

Section LSTMDataLoader.

(** A sequence is a [Tuple[pd.DataFrame, float]]; [CryptoDataset] is the
    constructor of the dataset class of [crypto_dataset.py]. *)
Context {Sequence Dataset : Type}.
Variable CryptoDataset : list Sequence → Dataset.

(** The attributes of the data module.  The three datasets exist only once
    [setup] has run. *)
Record LSTMDataLoader := mkLSTMDataLoader {
  train_sequences : list Sequence;
  val_sequences : list Sequence;
  test_sequences : list Sequence;
  train_batch_size : Z;
  val_batch_size : Z;
  train_workers : Z;
  val_workers : Z;
  test_workers : Z;
  train_dataset : option Dataset;
  val_dataset : option Dataset;
  test_dataset : option Dataset;
}.

(** [LSTMDataLoader(train_sequences, val_sequences, test_sequences,
    train_batch_size, val_batch_size, train_workers=2, val_workers=1)];
    an argument left out is [None]. *)
Definition __init__
    (train_sequences val_sequences test_sequences : list Sequence)
    (train_batch_size val_batch_size : Z)
    (train_workers val_workers : option Z) : LSTMDataLoader :=
  let train_workers := default 2%Z train_workers in
  let val_workers := default 1%Z val_workers in
  {| train_sequences := train_sequences;
     val_sequences := val_sequences;
     test_sequences := test_sequences;
     train_batch_size := train_batch_size;
     val_batch_size := val_batch_size;
     train_workers := train_workers;
     val_workers := val_workers;
     test_workers := val_workers;
     train_dataset := None;
     val_dataset := None;
     test_dataset := None |}.

Definition setup (self : LSTMDataLoader) (stage : option string) : LSTMDataLoader :=
  {| train_sequences := train_sequences self;
     val_sequences := val_sequences self;
     test_sequences := test_sequences self;
     train_batch_size := train_batch_size self;
     val_batch_size := val_batch_size self;
     train_workers := train_workers self;
     val_workers := val_workers self;
     test_workers := test_workers self;
     train_dataset := Some (CryptoDataset (train_sequences self));
     val_dataset := Some (CryptoDataset (val_sequences self));
     test_dataset := Some (CryptoDataset (test_sequences self)) |}.

(** Reading an attribute that may not have been assigned yet. *)
Definition getattr {A} (attr : string) (value : option A) : result A :=
  match value with
  | Some v => inr v
  | None => inl (AttributeError attr)
  end.

Definition train_dataloader (self : LSTMDataLoader) : result (DataLoader Dataset) :=
  match getattr "train_dataset" (train_dataset self) with
  | inl e => inl e
  | inr ds => DataLoader_new ds (train_batch_size self) false (train_workers self)
  end.

Definition val_dataloader (self : LSTMDataLoader) : result (DataLoader Dataset) :=
  match getattr "val_dataset" (val_dataset self) with
  | inl e => inl e
  | inr ds => DataLoader_new ds (val_batch_size self) false (val_workers self)
  end.

Definition test_dataloader (self : LSTMDataLoader) : result (DataLoader Dataset) :=
  match getattr "test_dataset" (test_dataset self) with
  | inl e => inl e
  | inr ds => DataLoader_new ds (val_batch_size self) false (test_workers self)
  end.

(** The data modules a program can hold: built by the constructor, then
    set up any number of times (the three loader methods change nothing). *)
Inductive constructed : LSTMDataLoader → Prop :=
  | constructed_init trs vls tss tb vb tw vw :
      constructed (__init__ trs vls tss tb vb tw vw)
  | constructed_setup self stage :
      constructed self → constructed (setup self stage).

End LSTMDataLoader.

End DataModule.

(** ** The object store and the local disk, as the loader uses them *)

Module Store.

(** Contents of an object or of a file. *)
Definition Blob := string.

(** Requests made through the Minio client. *)
Inductive Call :=
  | BucketExists (bucket : string)
  | MakeBucket (bucket : string)
  | ListObjects (bucket prefix : string) (recursive : bool)
  | FGetObject (bucket object_name file_path : string).

(** What lies outside the loader: the buckets of the server with their
    objects, the directories and files of the local disk, the clock, and
    the requests the client has made so far (oldest first). *)
Record World := mkWorld {
  server : gmap string (gmap string Blob);
  dirs : gset string;
  files : gmap string Blob;
  clock : datetime;
  calls : list Call;
}.

(** [Path(...).joinpath(a)] and the [/] of the f-strings, for relative
    components. *)
Definition joinpath (base component : string) : string :=
  base +:+ "/" +:+ component.

(** The names of the objects of a bucket that start with [prefix]
    ([list_objects(bucket, prefix=prefix, recursive=True)]). *)
Definition objects_with_prefix (objects : gmap string Blob) (prefix : string) : list string :=
  filter (fun object_name => String.prefix prefix object_name = true)
         (map fst (map_to_list objects)).

(** Bucket names every Minio client accepts: three to sixty-three lower
    case letters, digits and hyphens, the first a letter and the last a
    letter or a digit.  (For a name it refuses, the client raises
    [ValueError] before it sends anything.) *)
Definition lower_case (c : ascii) : bool :=
  (97 <=? nat_of_ascii c)%nat && (nat_of_ascii c <=? 122)%nat.

Definition decimal_digit (c : ascii) : bool :=
  (48 <=? nat_of_ascii c)%nat && (nat_of_ascii c <=? 57)%nat.

Definition plain_bucket_name (b : string) : bool :=
  let cs := list_ascii_of_string b in
  (3 <=? length cs)%nat && (length cs <=? 63)%nat
  && forallb (fun c => lower_case c || decimal_digit c || Ascii.eqb c "-") cs
  && match cs with c :: _ => lower_case c | [] => false end
  && match last cs with Some c => lower_case c || decimal_digit c | None => false end.

End Store.

Import Store.

(** ** [serving/model.py]: the interface of [OnnxModel] *)

(** [OnnxModel(model_path=..., scaler_path=...)] may read the local files and
    may raise; [model.predict(sample)] returns a prediction or raises;
    [onnx_str] is the text an f-string prints for a model. *)
Class OnnxRuntime := {
  OnnxModel : Type;
  Sample : Type;
  Prediction : Type;
  onnx_new : string → string → gmap string Blob → result OnnxModel;
  onnx_predict : OnnxModel → Sample → result Prediction;
  onnx_str : OnnxModel → string;
}.

(** [list(set(xs))]: the distinct elements of [xs], in an order the program
    does not control. *)
Class SetOrder := {
  list_of_set : list string → list string;
  list_of_set_NoDup : ∀ xs, NoDup (list_of_set xs);
  list_of_set_elem_of : ∀ xs x, x ∈ list_of_set xs ↔ x ∈ xs;
}.

(** ** [serving/model_loader.py] *)

Module ModelLoader.

Section Loader.

Context `{OnnxRuntime} `{SetOrder}.

(** An entry of [session_models]: the dictionary [{"model": model}]. *)
Record SessionEntry := mkEntry { model : OnnxModel }.

(** The attributes of a loader ([client] is the connection to the [World]).
    [date] is absent until [update_date] has run. *)
Record Attrs := mkAttrs {
  bucket : string;
  session_models : gmap string SessionEntry;
  storage_path : string;
  date : option string;
}.

Record State := mkState { world : World; self : Attrs }.

(** Methods: state transformers that return a value or raise, keeping the
    state reached when they raise. *)
Definition M (A : Type) : Type := State → result A * State.

#[global] Instance M_ret : MRet M := fun A a st => (inr a, st).
#[global] Instance M_bind : MBind M := fun A B k c st =>
  match c st with
  | (inl e, st') => (inl e, st')
  | (inr a, st') => k a st'
  end.

Definition raise {A} (e : exn) : M A := fun st => (inl e, st).
Definition lift {A} (r : result A) : M A := fun st => (r, st).
Definition gets {A} (f : State → A) : M A := fun st => (inr (f st), st).
Definition modify_world (f : World → World) : M unit :=
  fun st => (inr tt, mkState (f (world st)) (self st)).
Definition modify_self (f : Attrs → Attrs) : M unit :=
  fun st => (inr tt, mkState (world st) (f (self st))).

(** [for x in xs: body(x)] *)
Fixpoint for_each {A} (xs : list A) (body : A → M unit) : M unit :=
  match xs with
  | [] => mret tt
  | x :: rest => body x;; for_each rest body
  end.

(** [[f(x) for x in xs]] *)
Fixpoint comprehension {A B} (f : A → M B) (xs : list A) : M (list B) :=
  match xs with
  | [] => mret []
  | x :: rest => y ← f x; ys ← comprehension f rest; mret (y :: ys)
  end.

(** *** The client, for bucket names it accepts *)

Definition log (c : Call) : M unit :=
  modify_world (fun w => mkWorld (server w) (dirs w) (files w) (clock w) (calls w ++ [c])).

Definition bucket_exists (b : string) : M bool :=
  log (BucketExists b);;
  srv ← gets (server ∘ world);
  mret (bool_decide (is_Some (srv !! b))).

Definition make_bucket (b : string) : M unit :=
  log (MakeBucket b);;
  srv ← gets (server ∘ world);
  match srv !! b with
  | Some _ => raise (S3Error "BucketAlreadyOwnedByYou")
  | None =>
      modify_world (fun w => mkWorld (<[b := ∅]> (server w)) (dirs w) (files w) (clock w) (calls w))
  end.

Definition list_objects (b prefix : string) (recursive : bool) : M (list string) :=
  log (ListObjects b prefix recursive);;
  srv ← gets (server ∘ world);
  match srv !! b with
  | None => raise (S3Error "NoSuchBucket")
  | Some objects => mret (objects_with_prefix objects prefix)
  end.

(** [fget_object(bucket, object_name, file_path)]: the object is written to
    the file. *)
Definition fget_object (b object_name file_path : string) : M unit :=
  log (FGetObject b object_name file_path);;
  w ← gets world;
  if bool_decide (file_path ∈ dirs w) then
    raise (ValueError ("file " +:+ file_path +:+ " is a directory"))
  else
    match server w !! b with
    | None => raise (S3Error "NoSuchBucket")
    | Some objects =>
        match objects !! object_name with
        | None => raise (S3Error "NoSuchKey")
        | Some blob =>
            modify_world (fun w =>
              mkWorld (server w) (dirs w) (<[file_path := blob]> (files w)) (clock w) (calls w))
        end
    end.

(** [path.mkdir(exist_ok=True)] for the directory [name] inside [parent]:
    nothing to do when the directory exists; otherwise the name must be
    free and the parent must be a directory, not a file and not missing. *)
Definition mkdir_exist_ok (parent name : string) : M unit :=
  w ← gets world;
  let path := joinpath parent name in
  if bool_decide (path ∈ dirs w) then mret tt
  else if bool_decide (is_Some (files w !! path)) then raise (FileExistsError path)
  else if bool_decide (parent ∈ dirs w) then
    modify_world (fun w => mkWorld (server w) ({[path]} ∪ dirs w) (files w) (clock w) (calls w))
  else if bool_decide (is_Some (files w !! parent)) then raise (NotADirectoryError path)
  else raise (FileNotFoundError path).

(** *** The methods *)

(** [self.date] *)
Definition get_date : M string :=
  d ← gets (date ∘ self);
  match d with
  | Some d => mret d
  | None => raise (AttributeError "date")
  end.

Definition _check_model_exists_in_session (model_name : string) : M bool :=
  sm ← gets (session_models ∘ self);
  if bool_decide (model_name ∈ dom sm) then mret true else mret false.

Definition get_predictions (model_name : string) (sample : Sample) : M Prediction :=
  found ← _check_model_exists_in_session model_name;
  if (found : bool) then
    sm ← gets (session_models ∘ self);
    match sm !! model_name with
    | None => raise (KeyError model_name)
    | Some entry => lift (onnx_predict (model entry) sample)
    end
  else raise (ValueError "Model not found in session.").

Definition update_date : M unit :=
  now ← gets (clock ∘ world);
  modify_self (fun a =>
    mkAttrs (bucket a) (session_models a) (storage_path a) (Some (strftime_Ymd now))).

Definition _get_models_files_path (currency compare : string) : M (string * string) :=
  sp ← gets (storage_path ∘ self);
  let model := joinpath (joinpath sp (currency +:+ "_" +:+ compare)) "model.onnx" in
  let scaler := joinpath (joinpath sp (currency +:+ "_" +:+ compare)) "scaler.pkl" in
  mret (model, scaler).

Definition _makedir (currency compare : string) : M unit :=
  sp ← gets (storage_path ∘ self);
  mkdir_exist_ok sp (currency +:+ "_" +:+ compare).

Definition _download_files (currency compare : string) : M unit :=
  _makedir currency compare;;
  b ← gets (bucket ∘ self);
  d ← get_date;
  sp ← gets (storage_path ∘ self);
  fget_object b
    (d +:+ "/" +:+ currency +:+ "_" +:+ compare +:+ "/model.onnx")
    (sp +:+ "/" +:+ currency +:+ "_" +:+ compare +:+ "/model.onnx");;
  b ← gets (bucket ∘ self);
  d ← get_date;
  sp ← gets (storage_path ∘ self);
  fget_object b
    (d +:+ "/" +:+ currency +:+ "_" +:+ compare +:+ "/scaler.pkl")
    (sp +:+ "/" +:+ currency +:+ "_" +:+ compare +:+ "/scaler.pkl").

Definition _get_list_of_available_models : M (list string) :=
  b ← gets (bucket ∘ self);
  d ← get_date;
  available_models ← list_objects b d true;
  names ← comprehension (fun object_name => lift (index (split "/" object_name) 1))
                        available_models;
  mret (list_of_set names).

Definition _add_model_to_session_models (currency compare : string) : M string :=
  '(model_path, scaler_path) ← _get_models_files_path currency compare;
  fs ← gets (files ∘ world);
  model ← lift (onnx_new model_path scaler_path fs);
  modify_self (fun a =>
    mkAttrs (bucket a)
            (<[currency +:+ "_" +:+ compare := mkEntry model]> (session_models a))
            (storage_path a) (date a));;
  mret ("Model " +:+ onnx_str model +:+ " added to session.").

Definition update_model_files : M unit :=
  models ← _get_list_of_available_models;
  for_each models (fun model =>
    '(currency, compare) ← lift (unpack2 (split "_" model));
    _download_files currency compare;;
    _add_model_to_session_models currency compare;;
    mret tt).

(** [ModelLoader()]: [MINIO_BUCKET] is the bucket named by the environment
    and [w] the world the constructor runs in; [str(Path("./models"))] is
    ["models"].  [blank] is the object before any attribute is assigned. *)
Definition __init__ (MINIO_BUCKET : string) (w : World) : result unit * State :=
  let blank := mkState w (mkAttrs "" ∅ "" None) in
  (modify_self (fun a => mkAttrs MINIO_BUCKET (session_models a) (storage_path a) (date a));;
   b ← gets (bucket ∘ self);
   found ← bucket_exists b;
   (if negb (found : bool) then make_bucket b else mret tt);;
   modify_self (fun a => mkAttrs (bucket a) ∅ (storage_path a) (date a));;
   modify_self (fun a => mkAttrs (bucket a) (session_models a) "models" (date a));;
   update_date;;
   update_model_files) blank.

End Loader.

End ModelLoader.

(** ** Vocabulary for the properties of the loader *)

Module LoaderSpec.

Import ModelLoader.

(** A request made for the date [d]: a listing whose prefix is [d], or a
    download of an object whose name starts with [d/].  Requests about the
    bucket itself concern no date. *)
Definition under_date (d : string) (c : Call) : Prop :=
  match c with
  | ListObjects _ prefix _ => prefix = d
  | FGetObject _ object_name _ => String.prefix (d +:+ "/") object_name = true
  | BucketExists _ | MakeBucket _ => True
  end.

(** The two downloads made for the model [name] of date [d]. *)
Definition downloads (b d sp name : string) : list Call :=
  [FGetObject b (d +:+ "/" +:+ name +:+ "/model.onnx") (sp +:+ "/" +:+ name +:+ "/model.onnx");
   FGetObject b (d +:+ "/" +:+ name +:+ "/scaler.pkl") (sp +:+ "/" +:+ name +:+ "/scaler.pkl")].

Section Spec.

Context `{OnnxRuntime}.

(** What a method leaves as it was: the configuration of the loader, the
    server and the clock. *)
Definition same_setting (st st' : State) : Prop :=
  bucket (self st') = bucket (self st)
  ∧ storage_path (self st') = storage_path (self st)
  ∧ date (self st') = date (self st)
  ∧ server (world st') = server (world st)
  ∧ clock (world st') = clock (world st).

(** The requests made between two states. *)
Definition requests (st st' : State) (new : list Call) : Prop :=
  calls (world st') = calls (world st) ++ new.

(** The session entry [entry] for [name] wraps the two files downloaded
    for [name] from under the date [d] of bucket contents [objects]: [fs]
    is the local disk at the time the model was built. *)
Definition wraps_download (objects : gmap string Blob) (d sp name : string)
    (entry : SessionEntry) : Prop :=
  let model_path := joinpath (joinpath sp name) "model.onnx" in
  let scaler_path := joinpath (joinpath sp name) "scaler.pkl" in
  ∃ (fs : gmap string Blob) blob_model blob_scaler,
    objects !! (d +:+ "/" +:+ name +:+ "/model.onnx") = Some blob_model
    ∧ objects !! (d +:+ "/" +:+ name +:+ "/scaler.pkl") = Some blob_scaler
    ∧ fs !! model_path = Some blob_model
    ∧ fs !! scaler_path = Some blob_scaler
    ∧ onnx_new model_path scaler_path fs = inr (model entry).

End Spec.

End LoaderSpec.

(** ** A small world to run the loader in *)

Module Demo.

(** A runtime whose models are the contents of their two files. *)
#[global] Instance runtime : OnnxRuntime := {|
  OnnxModel := Blob * Blob;
  Sample := nat;
  Prediction := nat;
  onnx_new := fun model_path scaler_path fs =>
    match fs !! model_path, fs !! scaler_path with
    | Some m, Some s => inr (m, s)
    | _, _ => inl (FileNotFoundError model_path)
    end;
  onnx_predict := fun _ sample => inr (S sample);
  onnx_str := fun m => fst m;
|}.

(** Distinct elements in the order of their first occurrence. *)
#[global] Instance first_occurrence : SetOrder := {|
  list_of_set := remove_dups;
  list_of_set_NoDup := NoDup_remove_dups;
  list_of_set_elem_of := elem_of_remove_dups;
|}.

Definition today : datetime := {| year := 2026; month := 11; day := 3 |}.

Definition objects : gmap string Blob :=
  <["2026-11-03/BTC_USDT/model.onnx" := "onnx-btc"]>
  (<["2026-11-03/BTC_USDT/scaler.pkl" := "pkl-btc"]>
  (<["2026-11-02/ETH_USDT/model.onnx" := "onnx-eth"]>
  (<["2026-11-02/ETH_USDT/scaler.pkl" := "pkl-eth"]> ∅))).

Definition world : World :=
  mkWorld (<["make-us-rich" := objects]> ∅) {["models"]} ∅ today [].

End Demo.

(** ** Loaders of the small world, in a few situations *)

Module Scenario.

Import ModelLoader.

(** A loader of the small world on its date, with nothing loaded yet. *)
Definition fresh : State :=
  mkState Demo.world (mkAttrs "make-us-rich" ∅ "models" (Some "2026-11-03")).

(** The same loader with the model of the day before still in its session. *)
Definition stale : State :=
  mkState Demo.world
    (mkAttrs "make-us-rich" (<["ETH_USDT" := mkEntry ("onnx-eth", "pkl-eth")]> ∅)
       "models" (Some "2026-11-03")).

(** The same loader on a disk without the storage directory. *)
Definition no_storage : State :=
  mkState (mkWorld (server Demo.world) ∅ ∅ Demo.today [])
    (mkAttrs "make-us-rich" ∅ "models" (Some "2026-11-03")).


(** A model stored without its scaler; its directory exists already. *)
Definition half_uploaded : State :=
  mkState
    (mkWorld (<["make-us-rich" := <["2026-11-03/BTC_USDT/model.onnx" := "onnx-btc"]> ∅]> ∅)
             {["models"; "models/BTC_USDT"]} ∅ Demo.today [])
    (mkAttrs "make-us-rich" ∅ "models" (Some "2026-11-03")).

End Scenario.

(** * Properties *)

(** ** Pipelines *)

(** Membership in a list that is written out. *)
Ltac in_list :=
  simpl; repeat first [apply list_elem_of_here | apply list_elem_of_further].

Section PipelineFacts.

Import TrainingModel ConvertingToOnnx PipelineRegistry.

Lemma position_is_Some n order : n ∈ order → is_Some (position n order).
Proof.
  induction order as [|m rest IH]; intros Hin.
  - by apply elem_of_nil in Hin.
  - simpl. destruct (decide (m = n)) as [->|Hne]; [by eexists|].
    apply elem_of_cons in Hin as [->|Hin]; [done|].
    destruct (IH Hin) as [i ->]. by eexists.
Qed.

Lemma position_lt_length n order i : position n order = Some i → i < length order.
Proof.
  revert i. induction order as [|m rest IH]; intros i; simpl; [done|].
  destruct (decide (m = n)); intros Hpos.
  - inversion Hpos. lia.
  - destruct (position n rest) as [j|] eqn:Hj; simplify_eq/=.
    specialize (IH j eq_refl). lia.
Qed.

Lemma position_app_l n l k i : position n l = Some i → position n (l ++ k) = Some i.
Proof.
  revert i. induction l as [|m rest IH]; intros i; simpl; [done|].
  destruct (decide (m = n)); [done|].
  destruct (position n rest) as [j|] eqn:Hj; intros; simplify_eq/=.
  by rewrite (IH j eq_refl).
Qed.

Lemma position_app_last n l : n ∉ l → position n (l ++ [n]) = Some (length l).
Proof.
  induction l as [|m rest IH]; intros Hnin; simpl.
  - by rewrite decide_True.
  - apply not_elem_of_cons in Hnin as [Hne Hnin].
    rewrite decide_False by done. by rewrite IH.
Qed.

(** In an order that respects the dependencies, a node is executed after
    every node it depends on. *)
Lemma producer_first a b order :
  topo_ok order = true → a ∈ order → b ∈ order → depends_on b a = true →
  executes_before a b order.
Proof.
  induction order as [|m rest IH]; intros Htopo Ha Hb Hdep.
  - by apply elem_of_nil in Ha.
  - simpl in Htopo. apply andb_prop in Htopo as [Hm Hrest].
    apply andb_prop in Hm as [Hself Hlater].
    rewrite forallb_forall in Hlater.
    assert (Hmb : m ≠ b).
    { intros ->. apply elem_of_cons in Ha as [->|Ha].
      - by rewrite Hdep in Hself.
      - apply list_elem_of_In, Hlater in Ha. by rewrite Hdep in Ha. }
    apply elem_of_cons in Hb as [->|Hb]; [done|].
    unfold executes_before. simpl. rewrite (decide_False (P := m = b)) by done.
    destruct (decide (m = a)) as [->|Hma].
    + destruct (position_is_Some b rest Hb) as [j Hj].
      exists 0, (S j). rewrite Hj. split_and!; [done..|lia].
    + apply elem_of_cons in Ha as [->|Ha]; [done|].
      destruct (IH Hrest Ha Hb Hdep) as (i & j & Hi & Hj & Hlt).
      exists (S i), (S j). rewrite Hi, Hj. split_and!; [done..|lia].
Qed.

Lemma topo_ok_filter (P : Node → Prop) `{!∀ n, Decision (P n)} order :
  topo_ok order = true → topo_ok (filter P order) = true.
Proof.
  induction order as [|m rest IH]; [done|].
  simpl. intros Htopo. apply andb_prop in Htopo as [Hm Hrest].
  apply andb_prop in Hm as [Hself Hlater].
  rewrite filter_cons. destruct (decide (P m)); [|by apply IH].
  simpl. rewrite Hself, (IH Hrest), andb_true_r. simpl.
  apply forallb_forall. intros x Hx.
  rewrite forallb_forall in Hlater. apply Hlater.
  apply list_elem_of_In. apply list_elem_of_In in Hx.
  by apply list_elem_of_filter in Hx as [_ ?].
Qed.

Lemma topo_ok_snoc order t :
  topo_ok order = true → (∀ n, depends_on n t = false) →
  topo_ok (order ++ [t]) = true.
Proof.
  intros Htopo Hfree. induction order as [|m rest IH]; simpl.
  - by rewrite Hfree.
  - simpl in Htopo. apply andb_prop in Htopo as [Hm Hrest].
    apply andb_prop in Hm as [Hself Hlater].
    rewrite Hself, (IH Hrest), andb_true_r. simpl.
    rewrite forallb_app, Hlater. simpl. by rewrite Hfree.
Qed.

(** No node can depend on the training node: it declares no output. *)
Lemma nothing_depends_on_training n : depends_on n training_model_node = false.
Proof.
  unfold depends_on. apply not_true_is_false. intros Hex.
  apply existsb_exists in Hex as (d & _ & Hd).
  apply bool_decide_eq_true in Hd. simpl in Hd. by apply elem_of_nil in Hd.
Qed.

(** C5: the validating node consumes ["conversion_done"] and
    ["input_sample"], both outputs of the converting node, so in every run of
    the converting_to_onnx pipeline, and of any pipeline that contains its
    two nodes, the converting node is executed before the validating node. *)
Theorem validation_after_conversion (p : Pipeline) (order : list Node) :
  nodes ConvertingToOnnx.create_pipeline ⊆ nodes p →
  is_run p order →
  "conversion_done" ∈ inputs validating_model_node
  ∧ "input_sample" ∈ inputs validating_model_node
  ∧ "conversion_done" ∈ outputs converting_model_node
  ∧ "input_sample" ∈ outputs converting_model_node
  ∧ executes_before converting_model_node validating_model_node order.
Proof.
  intros Hsub (Hnodup & Hin & Hall & Htopo).
  split_and!; [in_list..|].
  apply producer_first; [done| | |by vm_compute].
  - apply Hall, Hsub. in_list.
  - apply Hall, Hsub. in_list.
Qed.

Lemma validation_after_conversion_witness :
  executes_before converting_model_node validating_model_node
    [converting_model_node; validating_model_node].
Proof.
  apply (validation_after_conversion ConvertingToOnnx.create_pipeline
           [converting_model_node; validating_model_node]).
  - done.
  - apply (bool_decide_unpack _). vm_compute. exact I.
Defined.

(** The topological sort rearranges the nodes, and loses or adds none. *)
Lemma toposort_Permutation fuel remaining :
  (length remaining ≤ fuel)%nat → concat (toposort fuel remaining) ≡ₚ remaining.
Proof.
  revert remaining. induction fuel as [|fuel IH]; intros remaining Hlen.
  - destruct remaining; [done|simpl in Hlen; lia].
  - destruct remaining as [|n rest]; [done|].
    set (all := n :: rest) in *.
    pose proof (filter_app_complement (ready all) all) as Hsplit.
    change (toposort (S fuel) all)
      with (match filter (ready all) all with
            | [] => [merge_sort node_le all]
            | level =>
                merge_sort node_le level
                :: toposort fuel (filter (fun m => ¬ ready all m) all)
            end).
    destruct (filter (ready all) all) as [|r level] eqn:Hlevel.
    + simpl. rewrite app_nil_r. apply merge_sort_Permutation.
    + rewrite concat_cons, merge_sort_Permutation, IH; [done|].
      apply Permutation_length in Hsplit. rewrite length_app in Hsplit.
      simpl in *. lia.
Qed.

Lemma Pipeline_new_Permutation ns : nodes (Pipeline_new ns) ≡ₚ ns.
Proof. by apply toposort_Permutation. Qed.

(** The sum has the nodes of both operands, each once. *)
Lemma elem_of_pipeline_add p q n :
  n ∈ nodes (p + q)%pipeline ↔ n ∈ nodes p ∨ n ∈ nodes q.
Proof.
  unfold pipeline_add.
  by rewrite Pipeline_new_Permutation, elem_of_remove_dups, elem_of_app.
Qed.


Variable fd_create_pipeline pd_create_pipeline : Pipeline.

Local Abbreviation default_pipeline :=
  (fd_create_pipeline + pd_create_pipeline
   + TrainingModel.create_pipeline + ConvertingToOnnx.create_pipeline)%pipeline.


(** C2: the converting node asks for ["training_done"], but the training
    node is declared with [outputs=None]: no node of the training pipeline
    produces ["training_done"], the converting node does not depend on the
    training node, and every run of the default pipeline can be rearranged
    into a run in which the converting node is executed before the training
    node. *)
Theorem training_done_is_never_produced (order : list Node) :
  is_run default_pipeline order →
  let order' := filter (λ n, n ≠ training_model_node) order ++ [training_model_node] in
  "training_done" ∈ inputs converting_model_node
  ∧ (∀ n, n ∈ nodes TrainingModel.create_pipeline → "training_done" ∉ outputs n)
  ∧ depends_on converting_model_node training_model_node = false
  ∧ is_run default_pipeline order'
  ∧ executes_before converting_model_node training_model_node order'
  ∧ ¬ executes_before training_model_node converting_model_node order'.
Proof.
  intros (Hnodup & Hin & Hall & Htopo) order'.
  assert (Htrain : training_model_node ∈ nodes default_pipeline).
  { rewrite !elem_of_pipeline_add. left. right. in_list. }
  assert (Hconv : converting_model_node ∈ nodes default_pipeline).
  { rewrite !elem_of_pipeline_add. right. in_list. }
  assert (Hnot : training_model_node ∉ filter (λ n, n ≠ training_model_node) order).
  { rewrite list_elem_of_filter. intros [Hne _]. by apply Hne. }
  assert (Hbefore : executes_before converting_model_node training_model_node order').
  { assert (Hc : converting_model_node ∈ filter (λ n, n ≠ training_model_node) order).
    { apply list_elem_of_filter. split; [done|by apply Hall]. }
    destruct (position_is_Some _ _ Hc) as [i Hi].
    exists i, (length (filter (λ n, n ≠ training_model_node) order)).
    split_and!.
    - by apply position_app_l.
    - by apply position_app_last.
    - by eapply position_lt_length. }
  split_and!; [in_list| |apply nothing_depends_on_training| |done|].
  - intros n Hn. apply list_elem_of_singleton in Hn as ->. apply not_elem_of_nil.
  - split_and!.
    + apply NoDup_app. split_and!.
      * by apply NoDup_filter.
      * intros x Hx Hx'. apply list_elem_of_singleton in Hx' as ->. done.
      * apply NoDup_singleton.
    + intros x Hx. apply elem_of_app in Hx as [Hx|Hx].
      * apply list_elem_of_filter in Hx as [_ Hx]. by apply Hin.
      * by apply list_elem_of_singleton in Hx as ->.
    + intros x Hx. apply elem_of_app.
      destruct (decide (x = training_model_node)) as [->|Hne].
      * right. by apply list_elem_of_singleton.
      * left. apply list_elem_of_filter. split; [done|by apply Hall].
    + apply topo_ok_snoc; [by apply topo_ok_filter|apply nothing_depends_on_training].
  - destruct Hbefore as (i & j & Hi & Hj & Hlt).
    intros (i' & j' & Hi' & Hj' & Hlt'). simplify_eq. lia.
Qed.

End PipelineFacts.



(** The sum does not depend on the order of its operands. *)
Example sum_of_training_and_converting_commutes :
  (TrainingModel.create_pipeline + ConvertingToOnnx.create_pipeline)%pipeline
  = (ConvertingToOnnx.create_pipeline + TrainingModel.create_pipeline)%pipeline.
Proof. vm_compute. reflexivity. Qed.

Lemma training_done_is_never_produced_witness :
  executes_before ConvertingToOnnx.converting_model_node TrainingModel.training_model_node
    [ConvertingToOnnx.converting_model_node; ConvertingToOnnx.validating_model_node;
     TrainingModel.training_model_node].
Proof.
  apply (training_done_is_never_produced (mkPipeline []) (mkPipeline [])
           [TrainingModel.training_model_node; ConvertingToOnnx.converting_model_node;
            ConvertingToOnnx.validating_model_node]).
  apply (bool_decide_unpack _). vm_compute. exact I.
Defined.

(** ** The data module *)

Section DataModuleFacts.

Import DataModule.

Context {Sequence Dataset : Type}.
Variable CryptoDataset : list Sequence → Dataset.

Local Abbreviation LSTM := (@LSTMDataLoader Sequence Dataset).

(** With a positive batch size the batches, put end to end, are the
    indices in the order of the sampler. *)
Lemma batched_concat size fuel (indices : list nat) :
  (0 < size)%nat → (length indices ≤ fuel)%nat →
  concat (batched fuel size indices) = indices.
Proof.
  intros Hsize. revert indices.
  induction fuel as [|fuel IH]; intros indices Hlen.
  - destruct indices; [done|simpl in Hlen; lia].
  - destruct indices as [|i rest]; [done|].
    change (batched (S fuel) size (i :: rest))
      with (take size (i :: rest) :: batched fuel size (drop size (i :: rest))).
    rewrite concat_cons, IH, take_drop; [done|].
    rewrite length_drop. simpl in *. lia.
Qed.

Lemma batches_in_order (perm : list nat → list nat) len (dl : DataLoader Dataset) :
  shuffle dl = false → (0 < batch_size dl)%Z →
  concat (batches perm len dl) = seq 0 len.
Proof.
  intros Hsh Hpos. unfold batches, sampler. rewrite Hsh.
  apply batched_concat; [lia|by rewrite length_seq].
Qed.

(** The constructor makes the worker count of the test loader that of the
    validation loader, and [setup] keeps it so. *)
Lemma constructed_test_workers (self : LSTM) :
  constructed CryptoDataset self → test_workers self = val_workers self.
Proof. induction 1; done. Qed.

Lemma DataLoader_new_ok {D} (ds : D) batch_size shuffle num_workers :
  (0 < batch_size)%Z → (0 ≤ num_workers)%Z →
  DataLoader_new ds batch_size shuffle num_workers
  = inr (mkDataLoader ds batch_size shuffle num_workers).
Proof.
  intros Hb Hw. unfold DataLoader_new.
  destruct (Z.ltb_spec num_workers 0); [lia|].
  destruct (Z.leb_spec batch_size 0); [lia|done].
Qed.

Lemma DataLoader_new_inr {D} (ds : D) batch_size shuffle num_workers dl :
  DataLoader_new ds batch_size shuffle num_workers = inr dl →
  dl = mkDataLoader ds batch_size shuffle num_workers.
Proof.
  unfold DataLoader_new.
  destruct (num_workers <? 0)%Z; [done|].
  destruct (batch_size <=? 0)%Z; [done|]. by intros [= <-].
Qed.

(** C6: [setup] builds the three datasets from the stored train, val and test
    sequences, which it leaves as they are; after it [train_dataloader] and
    [val_dataloader] return what [DataLoader] makes of the train and the val
    dataset with the configured batch size and worker count and with
    shuffling off: a loader with these settings when the batch size is
    positive and the worker count is not negative, which visits the indices
    of its dataset in their order. *)
Theorem dataloaders_wrap_the_sequences (self : LSTM) (stage : option string) :
  let self' := setup CryptoDataset self stage in
  train_dataset self' = Some (CryptoDataset (train_sequences self))
  ∧ val_dataset self' = Some (CryptoDataset (val_sequences self))
  ∧ test_dataset self' = Some (CryptoDataset (test_sequences self))
  ∧ train_sequences self' = train_sequences self
  ∧ val_sequences self' = val_sequences self
  ∧ test_sequences self' = test_sequences self
  ∧ train_dataloader self'
    = DataLoader_new (CryptoDataset (train_sequences self))
        (train_batch_size self) false (train_workers self)
  ∧ val_dataloader self'
    = DataLoader_new (CryptoDataset (val_sequences self))
        (val_batch_size self) false (val_workers self)
  ∧ ((0 < train_batch_size self)%Z → (0 ≤ train_workers self)%Z →
     train_dataloader self'
     = inr (mkDataLoader (CryptoDataset (train_sequences self))
              (train_batch_size self) false (train_workers self)))
  ∧ ((0 < val_batch_size self)%Z → (0 ≤ val_workers self)%Z →
     val_dataloader self'
     = inr (mkDataLoader (CryptoDataset (val_sequences self))
              (val_batch_size self) false (val_workers self)))
  ∧ ∀ dl perm len,
      train_dataloader self' = inr dl ∨ val_dataloader self' = inr dl →
      shuffle dl = false ∧ sampler perm len (shuffle dl) = seq 0 len.
Proof.
  split_and!; try done.
  - intros Hb Hw. by apply DataLoader_new_ok.
  - intros Hb Hw. by apply DataLoader_new_ok.
  - intros dl perm len [Hdl|Hdl]; apply DataLoader_new_inr in Hdl as ->; done.
Qed.

(** C7: for every data module, however it was constructed and set up,
    [test_dataloader] after [setup] returns what [DataLoader] makes of the
    test dataset with the batch size [val_batch_size] and the worker count
    [val_workers]: a loader with these settings when [val_batch_size] is
    positive and [val_workers] is not negative; whenever it returns a
    loader, the loader has these settings.  The constructor takes no batch
    size or worker count for the test loader. *)
Theorem test_dataloader_uses_validation_settings (self : LSTM) (stage : option string) :
  constructed CryptoDataset self →
  test_workers self = val_workers self
  ∧ test_dataloader (setup CryptoDataset self stage)
    = DataLoader_new (CryptoDataset (test_sequences self))
        (val_batch_size self) false (val_workers self)
  ∧ ((0 < val_batch_size self)%Z → (0 ≤ val_workers self)%Z →
     test_dataloader (setup CryptoDataset self stage)
     = inr (mkDataLoader (CryptoDataset (test_sequences self))
              (val_batch_size self) false (val_workers self)))
  ∧ ∀ dl, test_dataloader self = inr dl →
      batch_size dl = val_batch_size self ∧ num_workers dl = val_workers self.
Proof.
  intros Hc. pose proof (constructed_test_workers self Hc) as Hw.
  assert (test_dataloader (setup CryptoDataset self stage)
          = DataLoader_new (CryptoDataset (test_sequences self))
              (val_batch_size self) false (val_workers self)) as Hrun.
  { unfold test_dataloader. simpl. by rewrite Hw. }
  split_and!; [done|done| |].
  - intros Hb Hnw. rewrite Hrun. by apply DataLoader_new_ok.
  - intros dl. unfold test_dataloader.
    destruct (getattr "test_dataset" (test_dataset self)); [done|].
    intros Hdl. apply DataLoader_new_inr in Hdl as ->. by rewrite Hw.
Qed.

End DataModuleFacts.

Lemma dataloaders_wrap_the_sequences_witness :
  DataModule.train_dataloader
    (DataModule.setup (fun xs : list nat => xs)
       (DataModule.__init__ [1; 2] [3] [4; 5; 6] 32%Z 8%Z None None) (Some "fit"))
  = inr (DataModule.mkDataLoader [1; 2] 32%Z false 2%Z).
Proof.
  apply (dataloaders_wrap_the_sequences (fun xs : list nat => xs)
           (DataModule.__init__ [1; 2] [3] [4; 5; 6] 32%Z 8%Z None None) (Some "fit"));
    simpl; lia.
Defined.

Lemma test_dataloader_uses_validation_settings_witness :
  DataModule.test_dataloader
    (DataModule.setup (fun xs : list nat => xs)
       (DataModule.__init__ [1; 2] [3] [4; 5; 6] 32%Z 8%Z (Some 4%Z) None) (Some "fit"))
  = inr (DataModule.mkDataLoader [4; 5; 6] 8%Z false 1%Z).
Proof.
  apply (test_dataloader_uses_validation_settings (fun xs : list nat => xs)
           (DataModule.__init__ [1; 2] [3] [4; 5; 6] 32%Z 8%Z (Some 4%Z) None) (Some "fit")).
  - apply DataModule.constructed_init.
  - simpl. lia.
  - simpl. lia.
Defined.

(** A batch size of zero and a negative number of workers are refused. *)
Example loader_refuses_bad_settings :
  DataModule.val_dataloader
    (DataModule.setup (fun xs : list nat => xs)
       (DataModule.__init__ [1; 2] [3] [4; 5; 6] 32%Z 0%Z None None) None)
  = inl (ValueError "batch_size should be a positive integer value, but got batch_size=0")
  ∧ DataModule.train_dataloader
      (DataModule.setup (fun xs : list nat => xs)
         (DataModule.__init__ [1; 2] [3] [4; 5; 6] 32%Z 8%Z (Some (-1)%Z) None) None)
    = inl (ValueError
             "num_workers option should be non-negative; use num_workers=0 to disable multiprocessing.").
Proof. split; vm_compute; reflexivity. Qed.

(** ** Splitting strings *)

Section SplitFacts.

Lemma split_length sep s : length (split sep s) = S (count sep s).
Proof.
  induction s as [|c rest IH]; [done|].
  simpl. destruct (Ascii.eqb c sep); simpl; [by rewrite IH|].
  destruct (split sep rest); simpl in *; lia.
Qed.

Lemma split_singleton sep s piece : split sep s = [piece] → s = piece.
Proof.
  revert piece. induction s as [|c rest IH]; intros piece; simpl.
  - by intros [= <-].
  - destruct (Ascii.eqb c sep).
    + intros [= <- Hnil]. pose proof (split_length sep rest) as Hlen.
      by rewrite Hnil in Hlen.
    + pose proof (split_length sep rest) as Hlen.
      destruct (split sep rest) as [|p ps]; [done|].
      intros [= <- ->]. by rewrite (IH p).
Qed.

(** Two pieces are the text before and the text after the separator. *)
Lemma split_pair sep s before after :
  split sep s = [before; after] → s = before +:+ String sep after.
Proof.
  revert before. induction s as [|c rest IH]; intros before; simpl; [done|].
  destruct (Ascii.eqb_spec c sep) as [->|Hne].
  - intros [= <- Hrest]. simpl. by rewrite (split_singleton _ _ _ Hrest).
  - destruct (split sep rest) as [|p ps]; [done|].
    intros [= <- ->]. simpl. by rewrite (IH p).
Qed.

(** No piece contains the separator. *)
Lemma split_pieces_free sep s : Forall (fun piece => count sep piece = 0) (split sep s).
Proof.
  induction s as [|c rest IH]; simpl; [by repeat constructor|].
  destruct (Ascii.eqb_spec c sep) as [->|Hne].
  - constructor; [done|apply IH].
  - destruct (split sep rest) as [|p ps]; simpl.
    + repeat constructor. simpl. by rewrite (proj2 (Ascii.eqb_neq _ _) Hne).
    + inversion IH; subst. constructor; [|done].
      simpl. by rewrite (proj2 (Ascii.eqb_neq _ _) Hne).
Qed.

(** Unpacking the pieces into two names works exactly when the separator
    occurs once. *)
Lemma unpack2_split_ok sep s :
  count sep s = 1 →
  ∃ before after,
    unpack2 (split sep s) = inr (before, after)
    ∧ s = before +:+ String sep after
    ∧ count sep before = 0 ∧ count sep after = 0.
Proof.
  intros Hcount. pose proof (split_length sep s) as Hlen.
  pose proof (split_pieces_free sep s) as Hfree.
  rewrite Hcount in Hlen.
  destruct (split sep s) as [|a [|b [|? ?]]] eqn:Hsplit; simplify_eq/=.
  exists a, b. split_and!; [done|by apply split_pair|..].
  - by inversion Hfree.
  - inversion Hfree as [|? ? _ Hfree']. by inversion Hfree'.
Qed.

Lemma unpack2_split_error sep s :
  count sep s ≠ 1 → ∃ msg, unpack2 (split sep s) = inl (ValueError msg).
Proof.
  intros Hcount. pose proof (split_length sep s) as Hlen.
  destruct (split sep s) as [|a [|b [|? ?]]] eqn:Hsplit; simpl; eauto.
  simpl in Hlen. lia.
Qed.

Lemma unpack2_split_inv sep s currency compare :
  unpack2 (split sep s) = inr (currency, compare) →
  split sep s = [currency; compare] ∧ count sep s = 1
  ∧ s = currency +:+ String sep compare.
Proof.
  intros Hun. pose proof (split_length sep s) as Hlen.
  destruct (split sep s) as [|a [|b [|? ?]]] eqn:Hsplit; simplify_eq/=.
  split_and!; [done|lia|by apply split_pair].
Qed.

End SplitFacts.

(** ** The loader *)

Ltac run :=
  repeat (unfold mbind, ModelLoader.M_bind, mret, ModelLoader.M_ret, ModelLoader.gets,
            ModelLoader.raise, ModelLoader.lift, ModelLoader.modify_self,
            ModelLoader.modify_world, ModelLoader.log, compose; simpl).

Section StringFacts.

Lemma append_assoc (a b c : string) : (a +:+ b) +:+ c = a +:+ (b +:+ c).
Proof.
  induction a as [|x a IH]; [done|].
  change (String x ((a +:+ b) +:+ c) = String x (a +:+ (b +:+ c))). by rewrite IH.
Qed.

Lemma append_length (a b : string) :
  String.length (a +:+ b) = String.length a + String.length b.
Proof.
  induction a as [|x a IH]; [done|].
  change (S (String.length (a +:+ b)) = S (String.length a + String.length b)).
  by rewrite IH.
Qed.

Lemma prefix_append (p s : string) : String.prefix p (p +:+ s) = true.
Proof.
  induction p as [|x p IH]; [by destruct s|].
  change (String.prefix (String x p) (String x (p +:+ s)) = true). simpl.
  destruct (ascii_dec x x); [done|congruence].
Qed.

(** A prefix as long as the first part of a text is that first part. *)
Lemma prefix_same_length (p q rest : string) :
  String.length p = String.length q →
  String.prefix p (q +:+ rest) = true → p = q.
Proof.
  revert q. induction p as [|x p IH]; intros [|y q]; try done.
  change (String y q +:+ rest) with (String y (q +:+ rest)). simpl.
  intros [= Hlen]. destruct (ascii_dec x y) as [->|]; [|done].
  intros Hp. by rewrite (IH q Hlen Hp).
Qed.

Lemma zero_padded_length width n : String.length (zero_padded width n) = width.
Proof.
  revert n. induction width as [|w IH]; intros n; [done|].
  change (zero_padded (S w) n)
    with (zero_padded w (n / 10) +:+ String (digit n) EmptyString).
  rewrite append_length, IH. simpl. lia.
Qed.

Lemma strftime_Ymd_length dt : String.length (strftime_Ymd dt) = 10.
Proof.
  unfold strftime_Ymd. rewrite !append_length, !zero_padded_length. done.
Qed.

(** An object stored under another date does not start with this date. *)
Lemma other_date_not_prefixed dt dt' rest :
  strftime_Ymd dt' ≠ strftime_Ymd dt →
  String.prefix (strftime_Ymd dt) (strftime_Ymd dt' +:+ "/" +:+ rest) = false.
Proof.
  intros Hne. apply not_true_is_false. intros Hp. apply Hne. symmetry.
  eapply prefix_same_length; [|done].
  by rewrite !strftime_Ymd_length.
Qed.

Lemma prefix_trans (p q s : string) :
  String.prefix p q = true → String.prefix q s = true → String.prefix p s = true.
Proof.
  revert q s. induction p as [|x p IH]; intros q s; [by destruct s|].
  destruct q as [|y q]; [done|]. destruct s as [|z s]; [done|]. simpl.
  destruct (ascii_dec x y) as [->|]; [|done].
  destruct (ascii_dec y z) as [->|]; [|done]. apply IH.
Qed.

End StringFacts.

Section LoaderFacts.

Import ModelLoader LoaderSpec.
Context `{OnnxRuntime} `{SetOrder}.

Lemma fget_object_effect b o f st r st' :
  fget_object b o f st = (r, st') →
  self st' = self st
  ∧ server (world st') = server (world st)
  ∧ clock (world st') = clock (world st)
  ∧ dirs (world st') = dirs (world st)
  ∧ calls (world st') = calls (world st) ++ [FGetObject b o f]
  ∧ match r with
    | inr _ => ∃ objs blob,
        server (world st) !! b = Some objs ∧ objs !! o = Some blob
        ∧ files (world st') = <[f := blob]> (files (world st))
    | inl _ => files (world st') = files (world st)
    end.
Proof.
  unfold fget_object. run. repeat case_match; intros [= <- <-]; simpl; eauto 10.
Qed.

Lemma mkdir_exist_ok_effect parent name st r st' :
  mkdir_exist_ok parent name st = (r, st') →
  self st' = self st
  ∧ server (world st') = server (world st)
  ∧ clock (world st') = clock (world st)
  ∧ files (world st') = files (world st)
  ∧ calls (world st') = calls (world st).
Proof.
  unfold mkdir_exist_ok. run. repeat case_match; intros [= <- <-]; simpl; eauto 10.
Qed.

Lemma list_objects_effect b prefix recursive st r st' :
  list_objects b prefix recursive st = (r, st') →
  self st' = self st
  ∧ server (world st') = server (world st)
  ∧ clock (world st') = clock (world st)
  ∧ files (world st') = files (world st)
  ∧ calls (world st') = calls (world st) ++ [ListObjects b prefix recursive]
  ∧ ∀ names, r = inr names →
      ∃ objs, server (world st) !! b = Some objs
              ∧ names = objects_with_prefix objs prefix.
Proof.
  unfold list_objects. run. repeat case_match; intros [= <- <-]; simpl;
    split_and!; try done; intros; simplify_eq; eauto.
Qed.

Lemma comprehension_lift {A B} (f : A → result B) xs st r st' :
  comprehension (fun x => lift (f x)) xs st = (r, st') →
  st' = st ∧ ∀ ys, r = inr ys → Forall2 (fun x y => f x = inr y) xs ys.
Proof.
  revert r st'. induction xs as [|x xs IH]; intros r st'; simpl.
  - intros [= <- <-]. split; [done|]. intros ys [= <-]. constructor.
  - run. destruct (f x) as [e|y] eqn:Hfx.
    + intros [= <- <-]. by split.
    + destruct (comprehension _ xs st) as [[e|ys'] st1] eqn:Hrest.
      * destruct (IH _ _ eq_refl) as [-> _]. intros [= <- <-]. by split.
      * destruct (IH _ _ eq_refl) as [-> Hys]. intros [= <- <-].
        split; [done|]. intros ys [= <-]. constructor; [done|by apply Hys].
Qed.

Lemma get_date_effect st r st' :
  get_date st = (r, st') →
  st' = st ∧ ∀ d, r = inr d → date (self st) = Some d.
Proof.
  unfold get_date. run. destruct (date (self st)); intros [= <- <-]; split; try done.
  by intros ? [= <-].
Qed.

Lemma available_models_effect st r st' :
  _get_list_of_available_models st = (r, st') →
  self st' = self st
  ∧ server (world st') = server (world st)
  ∧ clock (world st') = clock (world st)
  ∧ files (world st') = files (world st)
  ∧ calls (world st')
    = calls (world st)
      ++ match date (self st) with
         | Some d => [ListObjects (bucket (self st)) d true]
         | None => []
         end
  ∧ ∀ models, r = inr models →
      ∃ d objs,
        date (self st) = Some d
        ∧ server (world st) !! bucket (self st) = Some objs
        ∧ NoDup models
        ∧ (∀ o, o ∈ objects_with_prefix objs d → is_Some (split "/" o !! 1))
        ∧ ∀ m, m ∈ models ↔
               ∃ o, o ∈ objects_with_prefix objs d ∧ split "/" o !! 1 = Some m.
Proof.
  unfold _get_list_of_available_models, get_date. run.
  destruct (date (self st)) as [d|] eqn:Hd; simpl.
  2: { intros [= <- <-]. rewrite app_nil_r. by split_and!. }
  destruct (list_objects _ d true st) as [[e|objects] st1] eqn:Hlist.
  { apply list_objects_effect in Hlist as (? & ? & ? & ? & ? & _).
    intros [= <- <-]. by split_and!. }
  apply list_objects_effect in Hlist as (Hs & Hsrv & Hclk & Hf & Hcalls & Hnames).
  destruct (Hnames _ eq_refl) as (objs & Hobjs & ->).
  destruct (comprehension _ _ st1) as [[e|names] st2] eqn:Hcomp;
    apply comprehension_lift in Hcomp as [-> Hall]; intros [= <- <-].
  { by split_and!. }
  split_and!; try done.
  specialize (Hall _ eq_refl). unfold index in Hall.
  intros models [= <-]. exists d, objs. split_and!; [done|done|apply list_of_set_NoDup| |].
  { intros o Ho. apply list_elem_of_lookup in Ho as [i Hi].
    destruct (Forall2_lookup_l _ _ _ _ _ Hall Hi) as (m' & Hm' & Hom').
    by destruct (split "/" o !! 1); simplify_eq. }
  intros m. rewrite list_of_set_elem_of. split.
  - intros Hm. apply list_elem_of_lookup in Hm as [i Hi].
    destruct (Forall2_lookup_r _ _ _ _ _ Hall Hi) as (o & Ho & Hom).
    exists o. split; [by eapply list_elem_of_lookup_2|].
    by destruct (split "/" o !! 1); simplify_eq.
  - intros (o & Ho & Hom). apply list_elem_of_lookup in Ho as [i Hi].
    destruct (Forall2_lookup_l _ _ _ _ _ Hall Hi) as (m' & Hm' & Hom').
    rewrite Hom in Hom'. simplify_eq. by eapply list_elem_of_lookup_2.
Qed.

Lemma download_files_effect currency compare st r st' :
  _download_files currency compare st = (r, st') →
  let name := currency +:+ "_" +:+ compare in
  self st' = self st
  ∧ server (world st') = server (world st)
  ∧ clock (world st') = clock (world st)
  ∧ ∃ new,
      calls (world st') = calls (world st) ++ new
      ∧ (∀ d, date (self st) = Some d → Forall (under_date d) new)
      ∧ (r = inr tt →
         ∃ d objs blob_model blob_scaler,
           date (self st) = Some d
           ∧ server (world st) !! bucket (self st) = Some objs
           ∧ new = downloads (bucket (self st)) d (storage_path (self st)) name
           ∧ objs !! (d +:+ "/" +:+ name +:+ "/model.onnx") = Some blob_model
           ∧ objs !! (d +:+ "/" +:+ name +:+ "/scaler.pkl") = Some blob_scaler
           ∧ files (world st') !! (storage_path (self st) +:+ "/" +:+ name +:+ "/model.onnx")
             = Some blob_model
           ∧ files (world st') !! (storage_path (self st) +:+ "/" +:+ name +:+ "/scaler.pkl")
             = Some blob_scaler).
Proof.
  intros Hrun name. revert Hrun.
  unfold _download_files, _makedir.
  unfold mbind at 1, M_bind at 1. unfold mbind at 1, M_bind at 1. unfold gets at 1.
  destruct (mkdir_exist_ok _ _ st) as [[e|[]] st1] eqn:Hmk;
    apply mkdir_exist_ok_effect in Hmk as (Hs1 & Hsrv1 & Hclk1 & Hf1 & Hc1).
  { intros [= <- <-]. split_and!; try done. exists []. rewrite app_nil_r.
    split_and!; by try constructor. }
  unfold mbind at 1, M_bind at 1, gets at 1. unfold mbind at 1, M_bind at 1.
  destruct (get_date st1) as [[e|d] st1'] eqn:Hd1;
    apply get_date_effect in Hd1 as [-> Hdate1].
  { intros [= <- <-]. split_and!; try done. exists []. rewrite app_nil_r.
    split_and!; by try constructor. }
  specialize (Hdate1 _ eq_refl). rewrite Hs1 in Hdate1.
  unfold mbind at 1, M_bind at 1, gets at 1. unfold mbind at 1, M_bind at 1.
  unfold compose.
  destruct (fget_object _ _ _ st1) as [[e|[]] st2] eqn:Hg1;
    apply fget_object_effect in Hg1 as (Hs2 & Hsrv2 & Hclk2 & Hd2 & Hc2 & Hr2).
  { intros [= <- <-]. rewrite Hs2, Hs1, Hsrv2, Hsrv1, Hclk2, Hclk1, Hc2, Hc1.
    split_and!; try done. eexists. split_and!; [done| |done].
    intros d' Hd'. simplify_eq. repeat constructor. simpl.
    rewrite <- (append_assoc d "/"). apply prefix_append. }
  destruct Hr2 as (objs & blob_model & Hobjs & Hblob1 & Hfiles2).
  unfold mbind at 1, M_bind at 1, gets at 1. unfold mbind at 1, M_bind at 1.
  destruct (get_date st2) as [[e|d'] st2'] eqn:Hd2';
    apply get_date_effect in Hd2' as [-> Hdate2].
  { intros [= <- <-]. rewrite Hs2, Hs1, Hsrv2, Hsrv1, Hclk2, Hclk1, Hc2, Hc1.
    split_and!; try done. eexists. split_and!; [done| |done].
    intros d' Hd'. simplify_eq. repeat constructor. simpl.
    rewrite <- (append_assoc d "/"). apply prefix_append. }
  specialize (Hdate2 _ eq_refl). rewrite Hs2, Hs1 in Hdate2. simplify_eq.
  unfold mbind at 1, M_bind at 1, gets at 1. unfold compose.
  intros Hg2. apply fget_object_effect in Hg2 as (Hs3 & Hsrv3 & Hclk3 & Hd3 & Hc3 & Hr3).
  rewrite Hs3, Hs2, Hs1, Hsrv3, Hsrv2, Hsrv1, Hclk3, Hclk2, Hclk1, Hc3, Hc2, Hc1.
  rewrite Hs2, Hs1 in *. rewrite Hsrv2, Hsrv1 in *.
  split_and!; try done. eexists. split_and!; [by rewrite <- app_assoc| |].
  - intros d' Hd'. simplify_eq. repeat constructor; simpl.
    + rewrite <- (append_assoc d "/"). apply prefix_append.
    + rewrite <- (append_assoc d "/"). apply prefix_append.
  - intros ->. destruct Hr3 as (objs' & blob_scaler & Hobjs' & Hblob2 & Hfiles3).
    simplify_eq. exists d, objs, blob_model, blob_scaler.
    unfold downloads, name. rewrite !append_assoc.
    split_and!; try done.
    + rewrite Hfiles3, Hfiles2. rewrite lookup_insert_ne, lookup_insert_eq; [done|].
      intros Heq. by repeat apply (inj (String.app _)) in Heq.
    + rewrite Hfiles3. by rewrite lookup_insert_eq.
Qed.

Lemma joinpath_file sp name file :
  joinpath (joinpath sp name) file = sp +:+ "/" +:+ name +:+ "/" +:+ file.
Proof. unfold joinpath. by rewrite !append_assoc. Qed.

Lemma add_model_effect currency compare st r st' :
  _add_model_to_session_models currency compare st = (r, st') →
  let name := currency +:+ "_" +:+ compare in
  let sp := storage_path (self st) in
  world st' = world st
  ∧ bucket (self st') = bucket (self st)
  ∧ storage_path (self st') = storage_path (self st)
  ∧ date (self st') = date (self st)
  ∧ match r with
    | inl _ => session_models (self st') = session_models (self st)
    | inr _ =>
        ∃ m, onnx_new (joinpath (joinpath sp name) "model.onnx")
                      (joinpath (joinpath sp name) "scaler.pkl")
                      (files (world st)) = inr m
             ∧ session_models (self st')
               = <[name := mkEntry m]> (session_models (self st))
    end.
Proof.
  unfold _add_model_to_session_models, _get_models_files_path. run.
  destruct (onnx_new _ _ _) as [e|m] eqn:Hnew; intros [= <- <-]; simpl; eauto 10.
Qed.

(** The body of the loop of [update_model_files]. *)
Local Abbreviation update_one := (fun model : string =>
  '(currency, compare) ← lift (unpack2 (split "_" model));
  _download_files currency compare;;
  _add_model_to_session_models currency compare;;
  mret tt).

Lemma update_one_effect model st r st' :
  update_one model st = (r, st') →
  same_setting st st'
  ∧ ∃ new,
      requests st st' new
      ∧ (∀ d, date (self st) = Some d → Forall (under_date d) new)
      ∧ match r with
        | inl _ => session_models (self st') = session_models (self st)
        | inr _ =>
            count "_" model = 1
            ∧ ∃ d objs entry,
                date (self st) = Some d
                ∧ server (world st) !! bucket (self st) = Some objs
                ∧ new = downloads (bucket (self st)) d (storage_path (self st)) model
                ∧ wraps_download objs d (storage_path (self st)) model entry
                ∧ session_models (self st')
                  = <[model := entry]> (session_models (self st))
        end.
Proof.
  unfold mbind at 1, M_bind at 1, lift at 1.
  destruct (unpack2 (split "_" model)) as [e|[currency compare]] eqn:Hun.
  { intros [= <- <-]. split; [done|]. exists []. unfold requests.
    rewrite app_nil_r. split_and!; by try constructor. }
  apply unpack2_split_inv in Hun as (_ & Hcount & Hmodel).
  change (String "_" compare) with ("_" +:+ compare) in Hmodel.
  unfold mbind at 1, M_bind at 1.
  destruct (_download_files currency compare st) as [[e|[]] st1] eqn:Hdl;
    apply download_files_effect in Hdl
      as (Hs1 & Hsrv1 & Hclk1 & new & Hnew & Hunder & Hok).
  { intros [= <- <-]. unfold same_setting, requests. rewrite Hs1.
    split_and!; try done. exists new. by split_and!. }
  destruct (Hok eq_refl)
    as (d & objs & blob_model & blob_scaler & Hd & Hobjs & -> & Hbm & Hbs & Hfm & Hfs).
  unfold mbind at 1, M_bind at 1.
  destruct (_add_model_to_session_models currency compare st1) as [[e|msg] st2] eqn:Hadd;
    apply add_model_effect in Hadd as (Hw2 & Hb2 & Hsp2 & Hd2 & Hr2);
    intros [= <- <-]; unfold same_setting, requests;
    rewrite Hw2, Hb2, Hsp2, Hd2, Hs1, Hsrv1, Hclk1, Hnew, <- Hmodel.
  { split_and!; try done. eexists. split_and!; [done|by rewrite <- Hmodel in Hunder|].
    by rewrite Hr2, Hs1. }
  destruct Hr2 as (m & Hm & Hsess). rewrite Hs1, <- Hmodel in *.
  split_and!; try done. eexists. split_and!; [done|done|done|].
  exists d, objs, (mkEntry m). split_and!; try done.
  exists (files (world st1)), blob_model, blob_scaler.
  rewrite !joinpath_file in Hm |- *. by split_and!.
Qed.

Lemma same_setting_refl st : same_setting st st.
Proof. by unfold same_setting. Qed.

Lemma same_setting_trans st1 st2 st3 :
  same_setting st1 st2 → same_setting st2 st3 → same_setting st1 st3.
Proof. unfold same_setting. intros (?&?&?&?&?) (?&?&?&?&?). split_and!; congruence. Qed.

(** What the loop of [update_model_files] does, whether it ends or raises:
    it requests only downloads under the date, an entry of the session that
    it changed wraps files it downloaded, and it removes no entry; when it
    ends, every name it went through has one underscore and an entry. *)
Lemma update_loop_effect models st r st' :
  for_each models update_one st = (r, st') →
  same_setting st st'
  ∧ (∃ new, requests st st' new
            ∧ (∀ d, date (self st) = Some d → Forall (under_date d) new)
            ∧ ∀ name entry,
                session_models (self st') !! name = Some entry →
                session_models (self st) !! name = Some entry
                ∨ (name ∈ models
                   ∧ ∃ d objs,
                       date (self st) = Some d
                       ∧ server (world st) !! bucket (self st) = Some objs
                       ∧ downloads (bucket (self st)) d (storage_path (self st)) name ⊆ new
                       ∧ wraps_download objs d (storage_path (self st)) name entry))
  ∧ (∀ name, is_Some (session_models (self st) !! name) →
             is_Some (session_models (self st') !! name))
  ∧ (r = inr tt →
     ∀ name, name ∈ models →
       count "_" name = 1 ∧ is_Some (session_models (self st') !! name)).
Proof.
  set (body := update_one).
  revert st r st'. induction models as [|model models IH]; intros st r st'.
  - change (for_each [] body st) with (@inr exn unit tt, st).
    intros [= <- <-]. split_and!; [apply same_setting_refl| |done|].
    + exists []. unfold requests. rewrite app_nil_r. split_and!; [done|by constructor|].
      intros; by left.
    + intros _ name Hname. by apply elem_of_nil in Hname.
  - change (for_each (model :: models) body st)
      with (match body model st with
            | (inl e, st1) => (inl e, st1)
            | (inr _, st1) => for_each models body st1
            end).
    destruct (body model st) as [[e|[]] st1] eqn:Hone;
      apply update_one_effect in Hone as (Hset1 & new1 & Hreq1 & Hunder1 & Hr1).
    { intros [= <- <-]. split_and!; [done| | |done].
      - exists new1. split_and!; [done|done|]. intros name entry. rewrite Hr1. by left.
      - intros name. by rewrite Hr1. }
    destruct Hr1 as (Hcount & d & objs & entry1 & Hd & Hobjs & -> & Hwraps & Hsess1).
    intros Hloop. apply IH in Hloop
      as (Hset2 & (new2 & Hreq2 & Hunder2 & Hprov2) & Hmono2 & Hok2).
    pose proof Hset1 as (Hb1 & Hsp1 & Hd1 & Hsrv1 & Hclk1).
    rewrite Hb1, Hsp1, Hd1, Hsrv1 in *.
    split_and!.
    + by eapply same_setting_trans.
    + eexists. split_and!.
      * unfold requests in *. by rewrite Hreq2, Hreq1, <- app_assoc.
      * intros d' Hd'. apply Forall_app. split; [by apply Hunder1|by apply Hunder2].
      * intros name entry Hentry.
        destruct (Hprov2 _ _ Hentry) as [Hold|(Hin & d' & objs' & ? & ? & Hsub & ?)].
        -- rewrite Hsess1 in Hold.
           destruct (decide (model = name)) as [->|Hne].
           ++ rewrite lookup_insert_eq in Hold. simplify_eq. right.
              split; [apply list_elem_of_here|]. exists d, objs. split_and!; try done.
              intros c Hc. apply elem_of_app. by left.
           ++ rewrite lookup_insert_ne in Hold by done. by left.
        -- right. split; [by apply list_elem_of_further|].
           exists d', objs'. split_and!; try done.
           intros c Hc. apply elem_of_app. right. by apply Hsub.
    + intros name Hname. apply Hmono2. rewrite Hsess1.
      destruct (decide (model = name)) as [->|Hne].
      * rewrite lookup_insert_eq. by eexists.
      * by rewrite lookup_insert_ne.
    + intros -> name Hname. apply elem_of_cons in Hname as [->|Hname].
      * split; [done|]. apply Hmono2. rewrite Hsess1, lookup_insert_eq. by eexists.
      * by apply Hok2.
Qed.

(** The names [_get_list_of_available_models] finds for date [d]: the
    second component of the name of an object that starts with [d]. *)
Local Abbreviation listed objs d name :=
  (∃ o, o ∈ objects_with_prefix objs d ∧ split "/" o !! 1 = Some name).

Lemma update_model_files_effect st r st' :
  update_model_files st = (r, st') →
  same_setting st st'
  ∧ (∃ new, requests st st' new
            ∧ (∀ d, date (self st) = Some d → Forall (under_date d) new)
            ∧ ∀ name entry,
                session_models (self st') !! name = Some entry →
                session_models (self st) !! name = Some entry
                ∨ ∃ d objs,
                    date (self st) = Some d
                    ∧ server (world st) !! bucket (self st) = Some objs
                    ∧ listed objs d name
                    ∧ downloads (bucket (self st)) d (storage_path (self st)) name ⊆ new
                    ∧ wraps_download objs d (storage_path (self st)) name entry)
  ∧ (∀ name, is_Some (session_models (self st) !! name) →
             is_Some (session_models (self st') !! name))
  ∧ (r = inr tt →
     ∃ d objs,
       date (self st) = Some d
       ∧ server (world st) !! bucket (self st) = Some objs
       ∧ (∀ o, o ∈ objects_with_prefix objs d → is_Some (split "/" o !! 1))
       ∧ ∀ name, listed objs d name →
           count "_" name = 1 ∧ is_Some (session_models (self st') !! name)).
Proof.
  unfold update_model_files. unfold mbind at 1, M_bind at 1.
  destruct (_get_list_of_available_models st) as [[e|models] st1] eqn:Hlist;
    apply available_models_effect in Hlist
      as (Hs1 & Hsrv1 & Hclk1 & Hf1 & Hc1 & Hmodels).
  { intros [= <- <-]. unfold same_setting, requests. rewrite Hs1.
    split_and!; try done. eexists. split_and!; [done| |by left].
    intros d ->. by repeat constructor. }
  destruct (Hmodels _ eq_refl) as (d & objs & Hd & Hobjs & Hnodup & Hsplit & Hin).
  intros Hloop. apply update_loop_effect in Hloop
    as ((Hb2 & Hsp2 & Hd2 & Hsrv2 & Hclk2)
        & (new & Hreq & Hunder & Hprov) & Hmono & Hok).
  rewrite Hd in Hc1. rewrite Hs1, ?Hsrv1, ?Hclk1 in *.
  split_and!.
  - by unfold same_setting.
  - eexists. split_and!.
    + unfold requests in *. by rewrite Hreq, Hc1, <- app_assoc.
    + intros d' Hd'. simplify_eq. constructor; [done|by apply Hunder].
    + intros name entry Hentry.
      destruct (Hprov _ _ Hentry) as [?|(Hname & d' & objs' & ? & ? & Hsub & ?)];
        [by left|right].
      simplify_eq. exists d, objs. split_and!; try done.
      * by apply Hin.
      * intros c Hc. apply list_elem_of_further. by apply Hsub.
  - done.
  - intros ->. exists d, objs. split_and!; try done.
    intros name Hname. apply (Hok eq_refl). by apply Hin.
Qed.

(** The state in which the constructor calls [update_model_files]. *)
Lemma init_unfold b w :
  let found := bool_decide (is_Some (server w !! b)) in
  let w' :=
    mkWorld (if found then server w else <[b := ∅]> (server w))
            (dirs w) (files w) (clock w)
            (calls w ++ BucketExists b :: (if found then [] else [MakeBucket b])) in
  __init__ b w
  = update_model_files
      (mkState w' (mkAttrs b ∅ "models" (Some (strftime_Ymd (clock w))))).
Proof.
  unfold __init__, bucket_exists, make_bucket, update_date. run.
  destruct (server w !! b) as [objs|] eqn:Hb.
  - rewrite bool_decide_eq_true_2 by (by eexists). run. done.
  - rewrite bool_decide_eq_false_2 by (by intros [? ?]). run.
    rewrite Hb. run. by rewrite <- app_assoc.
Qed.

(** The two ways [get_predictions] can go; the state is the one given. *)
Lemma get_predictions_effect (st : State) (model_name : string) (sample : Sample) :
  get_predictions model_name sample st
  = match session_models (self st) !! model_name with
    | Some entry => (onnx_predict (model entry) sample, st)
    | None => (inl (ValueError "Model not found in session."), st)
    end.
Proof.
  unfold get_predictions, _check_model_exists_in_session. run.
  destruct (session_models (self st) !! model_name) as [entry|] eqn:Hentry.
  - rewrite bool_decide_eq_true_2 by (apply elem_of_dom; eauto).
    run. by rewrite Hentry.
  - by rewrite bool_decide_eq_false_2 by (by apply not_elem_of_dom).
Qed.

(** C3: when [model_name] is a key of [session_models], [get_predictions]
    returns what the model stored under it predicts for [sample]; when it
    is not, it raises [ValueError("Model not found in session.")].  In both
    cases the loader, [session_models] included, is left as it was. *)
Theorem get_predictions_found_or_value_error
    (st : State) (model_name : string) (sample : Sample) :
  (∀ entry, session_models (self st) !! model_name = Some entry →
     get_predictions model_name sample st = (onnx_predict (model entry) sample, st))
  ∧ (model_name ∉ dom (session_models (self st)) →
     get_predictions model_name sample st
     = (inl (ValueError "Model not found in session."), st))
  ∧ session_models (self (get_predictions model_name sample st).2)
    = session_models (self st).
Proof.
  rewrite get_predictions_effect. split_and!.
  - by intros entry ->.
  - intros Hnone. by apply not_elem_of_dom in Hnone as ->.
  - by destruct (session_models (self st) !! model_name).
Qed.

(** C4: the constructor asks whether the configured bucket exists and
    creates it if it does not, so that the bucket exists afterwards,
    whether the constructor returns or raises; a bucket that existed is left
    as it was.  When the constructor returns, for every object the bucket
    lists under the date of construction, the name in the second component
    of its path is a key of [session_models], whose entry is an [OnnxModel]
    built from the two files downloaded for that name. *)
Theorem init_establishes_the_cache (b : string) (w : World) :
  plain_bucket_name b = true →
  let d := strftime_Ymd (clock w) in
  let after := (__init__ b w).2 in
  is_Some (server (world after) !! b)
  ∧ server (world after) = (if decide (is_Some (server w !! b)) then server w
                            else <[b := ∅]> (server w))
  ∧ (∃ rest,
       calls (world after)
       = calls w ++ BucketExists b
           :: (if decide (is_Some (server w !! b)) then [] else [MakeBucket b])
           ++ rest)
  ∧ ∀ st,
      __init__ b w = (inr tt, st) →
      bucket (self st) = b
      ∧ date (self st) = Some d
      ∧ ∃ objs,
          server (world st) !! b = Some objs
          ∧ ∀ o, o ∈ objects_with_prefix objs d →
              ∃ name entry,
                split "/" o !! 1 = Some name
                ∧ session_models (self st) !! name = Some entry
                ∧ wraps_download objs d "models" name entry.
Proof.
  intros _ d after. unfold after. rewrite init_unfold. cbv zeta.
  destruct (update_model_files _) as [r st] eqn:Hrun.
  apply update_model_files_effect in Hrun
    as ((Hb & Hsp & Hd & Hsrv & Hclk) & (new & Hreq & Hunder & Hprov) & Hmono & Hok).
  unfold requests in Hreq. simpl in *.
  assert (server (world st) = (if decide (is_Some (server w !! b)) then server w
                               else <[b := ∅]> (server w))) as Hserver.
  { rewrite Hsrv. by destruct (decide _) as [?|?];
      [rewrite bool_decide_eq_true_2|rewrite bool_decide_eq_false_2]. }
  split_and!.
  - rewrite Hserver. destruct (decide _) as [?|?]; [done|].
    rewrite lookup_insert_eq. by eexists.
  - done.
  - exists new. rewrite Hreq, <- app_assoc. simpl.
    by destruct (decide _) as [?|?];
      [rewrite bool_decide_eq_true_2|rewrite bool_decide_eq_false_2].
  - intros st' [= -> <-].
    destruct (Hok eq_refl) as (d' & objs & [= <-] & Hobjs & Hsplit & Hall).
    fold d in Hprov, Hall, Hd.
    split_and!; try done.
    exists objs. split; [by rewrite Hsrv|].
    intros o Ho. destruct (Hsplit o Ho) as [name Hname].
    destruct (Hall name) as [_ [entry Hentry]]; [by exists o|].
    exists name, entry. split_and!; try done.
    destruct (Hprov _ _ Hentry) as [Hold|(d'' & objs' & ? & ? & _ & _ & ?)];
      [by rewrite lookup_empty in Hold|].
    by simplify_eq.
Qed.

(** C8: [update_model_files] returns only if every name found by
    [_get_list_of_available_models] contains exactly one underscore.
    Unpacking [model.split("_")] into two names raises [ValueError] for a
    name with no or with several underscores, and for a name with exactly
    one it gives the text before and the text after the underscore. *)
Theorem update_model_files_needs_one_underscore (st st' : State) :
  update_model_files st = (inr tt, st') →
  (∃ models st1,
     _get_list_of_available_models st = (inr models, st1)
     ∧ ∀ name, name ∈ models → count "_" name = 1)
  ∧ (∀ name, count "_" name ≠ 1 →
       ∃ msg, unpack2 (split "_" name) = inl (ValueError msg))
  ∧ (∀ name, count "_" name = 1 →
       ∃ currency compare,
         unpack2 (split "_" name) = inr (currency, compare)
         ∧ name = currency +:+ "_" +:+ compare
         ∧ count "_" currency = 0 ∧ count "_" compare = 0).
Proof.
  intros Hrun. split_and!.
  - revert Hrun. unfold update_model_files. unfold mbind at 1, M_bind at 1.
    destruct (_get_list_of_available_models st) as [[e|models] st1]; [done|].
    intros Hloop. exists models, st1. split; [done|].
    intros name Hname.
    by apply update_loop_effect in Hloop as (_ & _ & _ & Hok); apply (Hok eq_refl).
  - intros name. apply unpack2_split_error.
  - intros name. apply unpack2_split_ok.
Qed.

(** C9: the constructor sets [date] to the date of the clock, written
    year-month-day, and [update_date] is the method that sets it.  No other
    method changes it.  Whatever [update_model_files] does, every listing it
    requests has the date as prefix and every object it downloads lies
    under the date; an entry it puts in the session wraps the files
    downloaded for a name listed under the date.  An object stored under
    another date is never in such a listing and never such a download. *)
Theorem loader_is_pinned_to_its_date :
  (∀ b w,
     let st := (__init__ b w).2 in
     date (self st) = Some (strftime_Ymd (clock w))
     ∧ ∃ new, calls (world st) = calls w ++ new
              ∧ Forall (under_date (strftime_Ymd (clock w))) new)
  ∧ (∀ st, date (self (update_date st).2) = Some (strftime_Ymd (clock (world st))))
  ∧ (∀ st, date (self (update_model_files st).2) = date (self st))
  ∧ (∀ st, date (self (_get_list_of_available_models st).2) = date (self st))
  ∧ (∀ st currency compare,
       date (self (_download_files currency compare st).2) = date (self st))
  ∧ (∀ st currency compare,
       date (self (_add_model_to_session_models currency compare st).2) = date (self st))
  ∧ (∀ st currency compare, self (_makedir currency compare st).2 = self st)
  ∧ (∀ st currency compare, (_get_models_files_path currency compare st).2 = st)
  ∧ (∀ st model_name, (_check_model_exists_in_session model_name st).2 = st)
  ∧ (∀ st model_name sample, (get_predictions model_name sample st).2 = st)
  ∧ (∀ st d,
       date (self st) = Some d →
       let st' := (update_model_files st).2 in
       ∃ new,
         calls (world st') = calls (world st) ++ new
         ∧ Forall (under_date d) new
         ∧ ∀ name entry,
             session_models (self st') !! name = Some entry →
             session_models (self st) !! name = Some entry
             ∨ ∃ objs,
                 server (world st) !! bucket (self st) = Some objs
                 ∧ listed objs d name
                 ∧ downloads (bucket (self st)) d (storage_path (self st)) name ⊆ new
                 ∧ wraps_download objs d (storage_path (self st)) name entry)
  ∧ (∀ dt dt' rest,
       strftime_Ymd dt' ≠ strftime_Ymd dt →
       let other := strftime_Ymd dt' +:+ "/" +:+ rest in
       (∀ objs, other ∉ objects_with_prefix objs (strftime_Ymd dt))
       ∧ (∀ b file_path, ¬ under_date (strftime_Ymd dt) (FGetObject b other file_path))).
Proof.
  split_and!.
  - intros b w. rewrite init_unfold. cbv zeta.
    destruct (update_model_files _) as [r st] eqn:Hrun.
    apply update_model_files_effect in Hrun
      as ((_ & _ & Hd & _) & (new & Hreq & Hunder & _) & _).
    unfold requests in Hreq. simpl in *. split; [done|].
    rewrite Hreq, <- app_assoc. eexists. split; [done|].
    apply Forall_app. split; [|by apply Hunder].
    by destruct (bool_decide _); repeat constructor.
  - done.
  - intros st. destruct (update_model_files st) as [r st'] eqn:Hrun.
    by apply update_model_files_effect in Hrun as ((_ & _ & Hd & _) & _).
  - intros st. destruct (_get_list_of_available_models st) as [r st'] eqn:Hrun.
    apply available_models_effect in Hrun as (Hs & _). simpl. by rewrite Hs.
  - intros st currency compare.
    destruct (_download_files currency compare st) as [r st'] eqn:Hrun.
    apply download_files_effect in Hrun as (Hs & _). simpl. by rewrite Hs.
  - intros st currency compare.
    destruct (_add_model_to_session_models currency compare st) as [r st'] eqn:Hrun.
    by apply add_model_effect in Hrun as (_ & _ & _ & Hd & _).
  - intros st currency compare. unfold _makedir. run.
    destruct (mkdir_exist_ok _ _ st) as [r st'] eqn:Hrun.
    by apply mkdir_exist_ok_effect in Hrun as (Hs & _).
  - done.
  - intros st model_name. unfold _check_model_exists_in_session. run.
    by destruct (bool_decide _).
  - intros st model_name sample. rewrite get_predictions_effect.
    by destruct (session_models (self st) !! model_name).
  - intros st d Hd. cbv zeta.
    destruct (update_model_files st) as [r st'] eqn:Hrun.
    apply update_model_files_effect in Hrun as (_ & (new & Hreq & Hunder & Hprov) & _).
    exists new. split_and!; [done|by apply Hunder|].
    intros name entry Hentry.
    destruct (Hprov _ _ Hentry) as [?|(d' & objs & ? & ? & ? & ? & ?)]; [by left|].
    simplify_eq. right. by exists objs.
  - intros dt dt' rest Hne other. split.
    + intros objs Hin. apply list_elem_of_filter in Hin as [Hp _].
      unfold other in Hp. by rewrite other_date_not_prefixed in Hp.
    + intros b file_path Hunder.
      change (String.prefix (strftime_Ymd dt +:+ "/") other = true) in Hunder.
      assert (String.prefix (strftime_Ymd dt) other = true) as Hp.
      { eapply prefix_trans; [apply prefix_append|done]. }
      unfold other in Hp. by rewrite other_date_not_prefixed in Hp.
Qed.

End LoaderFacts.

(** The demo world: the bucket holds a model under today's date and another
    one under yesterday's; the constructor lists and downloads the first
    only. *)
Example demo_requests :
  calls (ModelLoader.world (ModelLoader.__init__ "make-us-rich" Demo.world).2)
  = [BucketExists "make-us-rich"; ListObjects "make-us-rich" "2026-11-03" true;
     FGetObject "make-us-rich" "2026-11-03/BTC_USDT/model.onnx" "models/BTC_USDT/model.onnx";
     FGetObject "make-us-rich" "2026-11-03/BTC_USDT/scaler.pkl" "models/BTC_USDT/scaler.pkl"].
Proof. vm_compute. reflexivity. Qed.

Example demo_session :
  map_to_list (ModelLoader.session_models
                 (ModelLoader.self (ModelLoader.__init__ "make-us-rich" Demo.world).2))
  = [("BTC_USDT", ModelLoader.mkEntry ("onnx-btc", "pkl-btc"))].
Proof. vm_compute. reflexivity. Qed.

(** A model name without an underscore makes the constructor raise. *)
Example demo_name_without_underscore :
  (ModelLoader.__init__ "make-us-rich"
     (mkWorld (<["make-us-rich" := <["2026-11-03/BTCUSDT/model.onnx" := "onnx"]> ∅]> ∅)
              {["models"]} ∅ Demo.today [])).1
  = inl (ValueError "not enough values to unpack (expected 2, got 1)").
Proof. vm_compute. reflexivity. Qed.

(** A run is decided by its outcome: the final state is the one reached. *)
Lemma run_outcome {A S} (p : A * S) (a : A) : p.1 = a → p = (a, p.2).
Proof. destruct p. by intros <-. Qed.

Lemma init_establishes_the_cache_witness :
  (server Demo.world !! "another-bucket" = None
   ∧ is_Some (server (ModelLoader.world
                        (ModelLoader.__init__ "another-bucket" Demo.world).2)
              !! "another-bucket"))
  ∧ ∃ entry,
      ModelLoader.session_models
        (ModelLoader.self (ModelLoader.__init__ "make-us-rich" Demo.world).2) !! "BTC_USDT"
      = Some entry.
Proof.
  split.
  - split; [vm_compute; reflexivity|].
    apply (init_establishes_the_cache "another-bucket" Demo.world).
    vm_compute. reflexivity.
  - destruct (init_establishes_the_cache "make-us-rich" Demo.world)
      as (_ & _ & _ & Hreturned); [vm_compute; reflexivity|].
    destruct (Hreturned (ModelLoader.__init__ "make-us-rich" Demo.world).2)
      as (_ & _ & objs & Hobjs & Hall).
    { apply run_outcome. vm_compute. reflexivity. }
    assert (server (ModelLoader.world (ModelLoader.__init__ "make-us-rich" Demo.world).2)
            !! "make-us-rich" = Some Demo.objects) as Hdemo.
    { vm_cast_no_check (eq_refl (Some Demo.objects)). }
    rewrite Hdemo in Hobjs. injection Hobjs as <-.
    destruct (Hall "2026-11-03/BTC_USDT/model.onnx") as (name & entry & Hname & Hentry & _).
    { apply (bool_decide_unpack _). vm_compute. exact I. }
    vm_compute in Hname. injection Hname as <-.
    by exists entry.
Defined.

Lemma update_model_files_needs_one_underscore_witness :
  ∃ models st1,
    ModelLoader._get_list_of_available_models
      (ModelLoader.mkState Demo.world
         (ModelLoader.mkAttrs "make-us-rich" ∅ "models" (Some "2026-11-03")))
    = (inr models, st1)
    ∧ ∀ name, name ∈ models → count "_" name = 1.
Proof.
  apply (update_model_files_needs_one_underscore
           (ModelLoader.mkState Demo.world
              (ModelLoader.mkAttrs "make-us-rich" ∅ "models" (Some "2026-11-03")))
           (ModelLoader.update_model_files
              (ModelLoader.mkState Demo.world
                 (ModelLoader.mkAttrs "make-us-rich" ∅ "models" (Some "2026-11-03")))).2).
  apply run_outcome. vm_compute. reflexivity.
Defined.

(** * Further properties *)

(** ** Runs of the registered pipelines *)

Section MorePipelineFacts.

Import TrainingModel ConvertingToOnnx PipelineRegistry.

(** The nodes of a part of a pipeline, taken in the order of a run of the
    whole, are a run of the part. *)
Lemma run_of_part (p q : Pipeline) (order : list Node) :
  nodes q ⊆ nodes p → is_run p order →
  is_run q (filter (λ n, n ∈ nodes q) order).
Proof.
  intros Hsub (Hnodup & Hin & Hall & Htopo). split_and!.
  - by apply NoDup_filter.
  - intros n Hn. by apply list_elem_of_filter in Hn as [? _].
  - intros n Hn. apply list_elem_of_filter. split; [done|]. by apply Hall, Hsub.
  - by apply topo_ok_filter.
Qed.

Variable fd_create_pipeline pd_create_pipeline : Pipeline.

Local Abbreviation default_pipeline :=
  (fd_create_pipeline + pd_create_pipeline
   + TrainingModel.create_pipeline + ConvertingToOnnx.create_pipeline)%pipeline.

(** X1: every pipeline registered under a name is a part of the default
    pipeline: its nodes are nodes of the default pipeline, and every run of
    the default pipeline, restricted to them, is a run of it. *)
Theorem registered_pipelines_are_parts_of_default (key : string) (p : Pipeline) :
  register_pipelines fd_create_pipeline pd_create_pipeline !! key = Some p →
  nodes p ⊆ nodes default_pipeline
  ∧ ∀ order, is_run default_pipeline order →
      is_run p (filter (λ n, n ∈ nodes p) order).
Proof.
  intros Hkey.
  assert (nodes p ⊆ nodes default_pipeline) as Hsub.
  { unfold register_pipelines in Hkey. cbv zeta in Hkey.
    repeat (apply lookup_insert_Some in Hkey as [[_ <-]|[_ Hkey]];
            [first [done|intros n Hn; rewrite !elem_of_pipeline_add; tauto]|]).
    by rewrite lookup_empty in Hkey. }
  split; [done|]. intros order. by apply run_of_part.
Qed.

End MorePipelineFacts.

Lemma registered_pipelines_are_parts_of_default_witness :
  is_run TrainingModel.create_pipeline
    (filter (λ n, n ∈ nodes TrainingModel.create_pipeline)
       [TrainingModel.training_model_node; ConvertingToOnnx.converting_model_node;
        ConvertingToOnnx.validating_model_node]).
Proof.
  apply (registered_pipelines_are_parts_of_default (mkPipeline []) (mkPipeline [])
           "training_model" TrainingModel.create_pipeline).
  - vm_compute. reflexivity.
  - apply (bool_decide_unpack _). vm_compute. exact I.
Defined.

(** X2: the converting_to_onnx pipeline can run in one order only. *)
Theorem converting_pipeline_has_one_run (order : list Node) :
  is_run ConvertingToOnnx.create_pipeline order
  ↔ order = [ConvertingToOnnx.converting_model_node;
             ConvertingToOnnx.validating_model_node].
Proof.
  split.
  - intros (Hnodup & Hin & Hall & Htopo).
    assert (order ≡ₚ [ConvertingToOnnx.converting_model_node;
                      ConvertingToOnnx.validating_model_node]) as Hperm.
    { apply NoDup_Permutation;
        [done|apply (bool_decide_unpack _); vm_compute; exact I|].
      intros n. split; [apply Hin|apply Hall]. }
    pose proof (Permutation_length Hperm) as Hlen.
    destruct order as [|a [|b [|? ?]]]; try done.
    assert (a ∈ [ConvertingToOnnx.converting_model_node;
                 ConvertingToOnnx.validating_model_node]) as Ha
      by (apply Hin; in_list).
    assert (b ∈ [ConvertingToOnnx.converting_model_node;
                 ConvertingToOnnx.validating_model_node]) as Hb
      by (apply Hin; in_list).
    apply NoDup_cons in Hnodup as [Hab _].
    rewrite list_elem_of_singleton in Hab.
    rewrite !elem_of_cons, elem_of_nil in Ha, Hb.
    destruct Ha as [->|[->|[]]]; destruct Hb as [->|[->|[]]]; try done.
  - intros ->. apply (bool_decide_unpack _). vm_compute. exact I.
Qed.

(** ** The data module before and after [setup] *)

Section MoreDataModuleFacts.

Import DataModule.

Context {Sequence Dataset : Type}.
Variable CryptoDataset : list Sequence → Dataset.

Local Abbreviation LSTM := (@LSTMDataLoader Sequence Dataset).

(** X3: the loaders need [setup].  On a data module fresh from the
    constructor each of the three loader methods raises [AttributeError]
    for its dataset.  After [setup], on that module and on any module set
    up before, each returns what [DataLoader] makes of the dataset of the
    stored sequences of its kind, without shuffling; workers left out of the
    constructor are two for training and one for validation and test. *)
Theorem loaders_need_setup
    (trs vls tss : list Sequence) (tb vb : Z) (tw vw : option Z) (stage : option string) :
  let fresh := __init__ trs vls tss tb vb tw vw : LSTM in
  let ready := setup CryptoDataset fresh stage in
  train_dataloader fresh = inl (AttributeError "train_dataset")
  ∧ val_dataloader fresh = inl (AttributeError "val_dataset")
  ∧ test_dataloader fresh = inl (AttributeError "test_dataset")
  ∧ train_dataloader ready
    = DataLoader_new (CryptoDataset trs) tb false (default 2%Z tw)
  ∧ val_dataloader ready
    = DataLoader_new (CryptoDataset vls) vb false (default 1%Z vw)
  ∧ test_dataloader ready
    = DataLoader_new (CryptoDataset tss) vb false (default 1%Z vw)
  ∧ ∀ (self : LSTM) stage',
      constructed CryptoDataset self →
      let again := setup CryptoDataset self stage' in
      train_dataloader again
      = DataLoader_new (CryptoDataset (train_sequences self))
          (train_batch_size self) false (train_workers self)
      ∧ val_dataloader again
        = DataLoader_new (CryptoDataset (val_sequences self))
            (val_batch_size self) false (val_workers self)
      ∧ test_dataloader again
        = DataLoader_new (CryptoDataset (test_sequences self))
            (val_batch_size self) false (val_workers self).
Proof.
  split_and!; try done.
  intros self stage' Hc. pose proof (constructed_test_workers _ _ Hc) as Hw.
  split_and!; try done.
  unfold test_dataloader. simpl. by rewrite Hw.
Qed.

End MoreDataModuleFacts.

Lemma loaders_need_setup_witness :
  DataModule.train_dataloader
    (DataModule.__init__ (Dataset := list nat) [1; 2] [3] [4; 5; 6] 32%Z 8%Z None None)
  = inl (AttributeError "train_dataset")
  ∧ DataModule.train_dataloader
      (DataModule.setup (fun xs : list nat => xs)
         (DataModule.__init__ [1; 2] [3] [4; 5; 6] 32%Z 8%Z None None) None)
    = inr (DataModule.mkDataLoader [1; 2] 32%Z false 2%Z).
Proof.
  destruct (loaders_need_setup (fun xs : list nat => xs)
              [1; 2] [3] [4; 5; 6] 32%Z 8%Z None None None)
    as (Hbefore & _ & _ & Hafter & _).
  split; [exact Hbefore|]. rewrite Hafter. reflexivity.
Defined.

(** ** More on the loader *)

Section MoreLoaderFacts.

Import ModelLoader LoaderSpec.
Context `{OnnxRuntime} `{SetOrder}.

Local Abbreviation update_one := (fun model : string =>
  '(currency, compare) ← lift (unpack2 (split "_" model));
  _download_files currency compare;;
  _add_model_to_session_models currency compare;;
  mret tt).

Local Abbreviation listed objs d name :=
  (∃ o, o ∈ objects_with_prefix objs d ∧ split "/" o !! 1 = Some name).

(** A text has a second piece exactly when the separator occurs in it. *)
Lemma split_second_None sep s : split sep s !! 1 = None ↔ count sep s = 0.
Proof.
  rewrite lookup_ge_None, split_length. lia.
Qed.

Lemma comprehension_index xs st :
  comprehension (fun o => lift (index (split "/" o) 1)) xs st
  = (match mapM (fun o => split "/" o !! 1) xs with
     | Some names => inr names
     | None => inl (IndexError "list index out of range")
     end, st).
Proof.
  induction xs as [|x xs IH]; [done|].
  cbn [comprehension mapM]. unfold mbind at 1, M_bind at 1, lift at 1, index at 1.
  destruct (split "/" x !! 1) as [name|]; [|done].
  unfold mbind at 1, M_bind at 1. rewrite IH. by destruct (mapM _ xs).
Qed.

(** The outcome of the listing, once the date is set and the bucket
    exists. *)
Lemma available_models_run (st : State) d objs :
  date (self st) = Some d →
  server (world st) !! bucket (self st) = Some objs →
  let w := world st in
  _get_list_of_available_models st
  = (match mapM (fun o => split "/" o !! 1) (objects_with_prefix objs d) with
     | Some names => inr (list_of_set names)
     | None => inl (IndexError "list index out of range")
     end,
     mkState (mkWorld (server w) (dirs w) (files w) (clock w)
                (calls w ++ [ListObjects (bucket (self st)) d true]))
             (self st)).
Proof.
  intros Hd Hobjs w.
  unfold _get_list_of_available_models, get_date, list_objects. run.
  rewrite Hd. run. rewrite Hobjs. run. rewrite comprehension_index.
  by destruct (mapM _ (objects_with_prefix objs d)).
Qed.

Lemma second_components_exist (listing : list string) :
  Forall (fun o => count "/" o ≠ 0) listing →
  is_Some (mapM (fun o => split "/" o !! 1) listing).
Proof.
  intros Hall. apply mapM_is_Some. eapply Forall_impl; [done|]. intros o Ho. simpl.
  destruct (split "/" o !! 1) eqn:Hs; [by eexists|].
  by apply split_second_None in Hs.
Qed.

(** X4: the listing of the models of the date.  The loader asks the server once,
    for the objects whose name starts with the date.  If the name of one of
    them contains no [/], the method raises [IndexError]; otherwise it
    returns, without repetition, exactly the second components of their
    names. *)
Theorem available_models_are_second_components (st : State) d objs :
  date (self st) = Some d →
  server (world st) !! bucket (self st) = Some objs →
  let listing := objects_with_prefix objs d in
  let w := world st in
  (_get_list_of_available_models st).2
  = mkState (mkWorld (server w) (dirs w) (files w) (clock w)
               (calls w ++ [ListObjects (bucket (self st)) d true]))
            (self st)
  ∧ (Exists (fun o => count "/" o = 0) listing →
     (_get_list_of_available_models st).1 = inl (IndexError "list index out of range"))
  ∧ (Forall (fun o => count "/" o ≠ 0) listing →
     ∃ models,
       (_get_list_of_available_models st).1 = inr models
       ∧ NoDup models
       ∧ ∀ name, name ∈ models ↔ listed objs d name).
Proof.
  intros Hd Hobjs listing w.
  pose proof (available_models_run st d objs Hd Hobjs) as Hrun.
  cbv zeta in Hrun. fold listing w in Hrun.
  split_and!.
  - by rewrite Hrun.
  - intros Hex. rewrite Hrun. simpl.
    destruct (mapM _ listing) as [names|] eqn:Hnames; [|done].
    assert (is_Some (mapM (fun o => split "/" o !! 1) listing)) as Hsome by eauto.
    apply mapM_is_Some in Hsome.
    apply Exists_exists in Hex as (o & Ho & Hcount).
    rewrite Forall_forall in Hsome. destruct (Hsome o Ho) as [name Hname].
    apply split_second_None in Hcount. simpl in Hname. congruence.
  - intros Hall.
    destruct (_get_list_of_available_models st) as [r st'] eqn:Hget.
    destruct (second_components_exist listing Hall) as [names Hnames].
    rewrite Hnames in Hrun. injection Hrun as -> _.
    apply available_models_effect in Hget as (_ & _ & _ & _ & _ & Hmodels).
    destruct (Hmodels _ eq_refl) as (d' & objs' & ? & ? & Hnodup & _ & Hin).
    simplify_eq. by eexists.
Qed.


(** X6: a model stored without its scaler: the model file is downloaded and
    written, then the download of the scaler raises [S3Error] with the code
    [NoSuchKey]; both requests were made and the loader itself is as it
    was. *)
Theorem download_without_scaler (st : State) currency compare d objs blob :
  let name := currency +:+ "_" +:+ compare in
  let sp := storage_path (self st) in
  let model_file := sp +:+ "/" +:+ name +:+ "/model.onnx" in
  let scaler_file := sp +:+ "/" +:+ name +:+ "/scaler.pkl" in
  let w := world st in
  joinpath sp name ∈ dirs w →
  model_file ∉ dirs w →
  scaler_file ∉ dirs w →
  date (self st) = Some d →
  server w !! bucket (self st) = Some objs →
  objs !! (d +:+ "/" +:+ name +:+ "/model.onnx") = Some blob →
  objs !! (d +:+ "/" +:+ name +:+ "/scaler.pkl") = None →
  _download_files currency compare st
  = (inl (S3Error "NoSuchKey"),
     mkState (mkWorld (server w) (dirs w) (<[model_file := blob]> (files w)) (clock w)
                (calls w ++ downloads (bucket (self st)) d sp name))
             (self st)).
Proof.
  intros name sp model_file scaler_file w Hdir Hmf Hsf Hd Hobjs Hmodel Hscaler.
  unfold model_file, scaler_file, downloads, name in *.
  rewrite !append_assoc in *.
  unfold _download_files, _makedir, mkdir_exist_ok, get_date, fget_object. run.
  rewrite (bool_decide_eq_true_2 _ Hdir). run.
  rewrite Hd. run. fold sp w. rewrite (bool_decide_eq_false_2 _ Hmf).
  rewrite Hobjs, Hmodel. run. rewrite Hd. run.
  fold sp w. rewrite (bool_decide_eq_false_2 _ Hsf).
  rewrite Hobjs, Hscaler. run. by rewrite <- app_assoc.
Qed.

(** X7: adding a model and asking it for predictions.  If [OnnxModel] raises,
    the exception is passed on and nothing has changed.  If it returns a
    model, the model is stored under [currency_compare], the message names
    it, the world is untouched, [get_predictions] for that name answers
    with that model, and for every other name it answers as before. *)
Theorem add_model_then_get_predictions (st : State) currency compare :
  let name := currency +:+ "_" +:+ compare in
  let sp := storage_path (self st) in
  let built := onnx_new (joinpath (joinpath sp name) "model.onnx")
                        (joinpath (joinpath sp name) "scaler.pkl")
                        (files (world st)) in
  (∀ e, built = inl e →
     _add_model_to_session_models currency compare st = (inl e, st))
  ∧ (∀ m, built = inr m →
       ∃ st',
         _add_model_to_session_models currency compare st
         = (inr ("Model " +:+ onnx_str m +:+ " added to session."), st')
         ∧ world st' = world st
         ∧ (∀ sample, get_predictions name sample st' = (onnx_predict m sample, st'))
         ∧ ∀ other sample, other ≠ name →
             (get_predictions other sample st').1 = (get_predictions other sample st).1).
Proof.
  intros name sp built. unfold built, sp, name.
  unfold _add_model_to_session_models, _get_models_files_path. run. split.
  - by intros e ->.
  - intros m ->. run. eexists. split_and!; [done|done|..].
    + intros sample. rewrite get_predictions_effect. simpl.
      by rewrite lookup_insert_eq.
    + intros other sample Hne. rewrite !get_predictions_effect. simpl.
      rewrite lookup_insert_ne by done.
      by destruct (session_models (self st) !! other).
Qed.

(** A name is not listed when it is the second component of no object of
    the listing. *)
Lemma not_listed objs d name :
  Forall (fun o => split "/" o !! 1 ≠ Some name) (objects_with_prefix objs d) →
  ¬ listed objs d name.
Proof.
  intros Hall (o & Ho & Hsecond). rewrite Forall_forall in Hall. by eapply Hall.
Qed.

(** X8: an update changes the entries of the names it lists and no other: a
    model that is not listed under the date of the loader keeps the entry it
    had, or stays absent, whether the update returns or raises. *)
Theorem update_keeps_unlisted_entries (st : State) d objs name :
  date (self st) = Some d →
  server (world st) !! bucket (self st) = Some objs →
  ¬ listed objs d name →
  session_models (self (update_model_files st).2) !! name
  = session_models (self st) !! name.
Proof.
  intros Hd Hobjs Hnot.
  destruct (update_model_files st) as [r st'] eqn:Hrun.
  apply update_model_files_effect in Hrun as (_ & (new & _ & _ & Hprov) & Hmono & _).
  simpl.
  assert (∀ entry, session_models (self st') !! name = Some entry →
                   session_models (self st) !! name = Some entry) as Hold.
  { intros entry Hentry.
    destruct (Hprov _ _ Hentry) as [?|(d' & objs' & ? & ? & Hl & _)]; [done|].
    by simplify_eq. }
  destruct (session_models (self st) !! name) as [entry|] eqn:Hentry.
  - destruct (Hmono name) as [entry' Hentry']; [by rewrite Hentry|].
    pose proof (Hold _ Hentry'). congruence.
  - destruct (session_models (self st') !! name) as [entry'|] eqn:Hentry'; [|done].
    pose proof (Hold _ eq_refl). congruence.
Qed.

(** The shape of the loader when the constructor has returned. *)
Lemma init_returns (b : string) (w : World) (st : State) :
  __init__ b w = (inr tt, st) →
  ∃ objs,
    server (world st) !! b = Some objs
    ∧ (∀ name entry, session_models (self st) !! name = Some entry →
                     listed objs (strftime_Ymd (clock w)) name)
    ∧ (∀ name, listed objs (strftime_Ymd (clock w)) name →
               is_Some (session_models (self st) !! name)).
Proof.
  rewrite init_unfold. intros Hrun.
  apply update_model_files_effect in Hrun
    as ((_ & _ & _ & Hsrv & _) & (new & _ & _ & Hprov) & _ & Hok).
  simpl in *. destruct (Hok eq_refl) as (d & objs & [= <-] & Hobjs & _ & Hall).
  exists objs. split_and!; [by rewrite Hsrv| |].
  - intros name entry Hentry.
    destruct (Hprov _ _ Hentry) as [Hold|(d' & objs' & ? & ? & Hl & _)];
      [by rewrite lookup_empty in Hold|].
    by simplify_eq.
  - intros name Hl. by apply Hall.
Qed.

(** X9: after construction the keys of the session are exactly the names listed
    under the date of construction. *)
Theorem init_session_keys_are_the_listed_names (b : string) (w : World) (st : State) :
  __init__ b w = (inr tt, st) →
  ∃ objs,
    server (world st) !! b = Some objs
    ∧ ∀ name,
        name ∈ dom (session_models (self st))
        ↔ listed objs (strftime_Ymd (clock w)) name.
Proof.
  intros Hrun. apply init_returns in Hrun as (objs & Hobjs & Honly & Hall).
  exists objs. split; [done|]. intros name. rewrite elem_of_dom. split.
  - intros [entry Hentry]. by eapply Honly.
  - apply Hall.
Qed.

Lemma list_of_set_nil : list_of_set [] = [].
Proof.
  destruct (list_of_set []) as [|x xs] eqn:Hxs; [done|].
  assert (x ∈ list_of_set []) as Hx by (rewrite Hxs; apply list_elem_of_here).
  apply (proj1 (list_of_set_elem_of _ _)) in Hx. by apply elem_of_nil in Hx.
Qed.

(** X10: nothing to load: for a bucket name the client accepts, when the
    bucket is new, or holds no object whose name starts with the date, the
    constructor returns a loader with an empty session; it has asked for
    the bucket and for the listing, has downloaded nothing and has left the
    disk as it was. *)
Theorem init_with_nothing_listed (b : string) (w : World) :
  plain_bucket_name b = true →
  (∀ objs, server w !! b = Some objs →
           objects_with_prefix objs (strftime_Ymd (clock w)) = []) →
  let found := bool_decide (is_Some (server w !! b)) in
  let d := strftime_Ymd (clock w) in
  __init__ b w
  = (inr tt,
     mkState
       (mkWorld (if found then server w else <[b := ∅]> (server w))
                (dirs w) (files w) (clock w)
                (calls w ++ BucketExists b
                   :: (if found then [] else [MakeBucket b])
                   ++ [ListObjects b d true]))
       (mkAttrs b ∅ "models" (Some d))).
Proof.
  intros _ Hempty found d. rewrite init_unfold. cbv zeta. fold found d.
  unfold update_model_files, _get_list_of_available_models, get_date, list_objects. run.
  assert ((if found then server w else <[b:=∅]> (server w)) !! b
          = Some (default ∅ (server w !! b))) as ->.
  { unfold found. destruct (server w !! b) as [objs|] eqn:Hb.
    - by rewrite bool_decide_eq_true_2 by (by eexists).
    - rewrite bool_decide_eq_false_2 by (by intros [? ?]). by rewrite lookup_insert_eq. }
  run.
  assert (objects_with_prefix (default ∅ (server w !! b)) d = []) as ->.
  { destruct (server w !! b) as [objs|] eqn:Hb; [by apply Hempty|].
    unfold objects_with_prefix. simpl. by rewrite map_to_list_empty. }
  run. rewrite list_of_set_nil. run.
  by rewrite <- !app_assoc.
Qed.

(** A loop that ends has made the two downloads of each name, in the order
    of the names, and has left for each an entry built from them. *)
Lemma update_loop_returns models st st' d objs :
  date (self st) = Some d →
  server (world st) !! bucket (self st) = Some objs →
  for_each models update_one st = (inr tt, st') →
  requests st st'
    (concat (downloads (bucket (self st)) d (storage_path (self st)) <$> models))
  ∧ ∀ name, name ∈ models →
      ∃ entry, session_models (self st') !! name = Some entry
               ∧ wraps_download objs d (storage_path (self st)) name entry.
Proof.
  set (body := update_one).
  revert st. induction models as [|model models IH]; intros st Hd Hobjs.
  - change (for_each [] body st) with (@inr exn unit tt, st).
    intros [= <-]. split.
    + unfold requests. simpl. by rewrite app_nil_r.
    + intros name Hname. by apply elem_of_nil in Hname.
  - change (for_each (model :: models) body st)
      with (match body model st with
            | (inl e, st1) => (inl e, st1)
            | (inr _, st1) => for_each models body st1
            end).
    destruct (body model st) as [[e|[]] st1] eqn:Hone; [done|].
    apply update_one_effect in Hone as (Hset1 & new1 & Hreq1 & _ & Hr1).
    destruct Hr1 as (_ & d' & objs' & entry1 & ? & ? & -> & Hwraps & Hsess1).
    simplify_eq.
    pose proof Hset1 as (Hb1 & Hsp1 & Hd1 & Hsrv1 & _).
    intros Hloop. pose proof Hloop as Hrest.
    apply update_loop_effect in Hrest as (_ & (new2 & _ & _ & Hprov2) & Hmono2 & _).
    apply IH in Hloop as [Hreq2 Hall2]; [|congruence..].
    rewrite Hb1, Hsp1, Hd1, Hsrv1 in *.
    split.
    + unfold requests in *. rewrite Hreq2, Hreq1. simpl. by rewrite <- app_assoc.
    + intros name Hname. apply elem_of_cons in Hname as [->|Hname]; [|by apply Hall2].
      destruct (Hmono2 model) as [entry Hentry];
        [rewrite Hsess1, lookup_insert_eq; by eexists|].
      exists entry. split; [done|].
      destruct (Hprov2 _ _ Hentry) as [Hold|(_ & d' & objs' & ? & ? & _ & ?)].
      * rewrite Hsess1, lookup_insert_eq in Hold. by simplify_eq.
      * by simplify_eq.
Qed.

(** X11: an update that returns has asked for the listing once and has then
    downloaded the two files of each listed name, each name once however
    many objects carry it; the entry of every listed name is built from the
    files just downloaded, also when the session had one before. *)
Theorem update_downloads_each_listed_model_once (st st' : State) :
  update_model_files st = (inr tt, st') →
  ∃ d objs models,
    date (self st) = Some d
    ∧ server (world st) !! bucket (self st) = Some objs
    ∧ NoDup models
    ∧ (∀ name, name ∈ models ↔ listed objs d name)
    ∧ calls (world st')
      = calls (world st)
        ++ ListObjects (bucket (self st)) d true
           :: concat (downloads (bucket (self st)) d (storage_path (self st)) <$> models)
    ∧ ∀ name, name ∈ models →
        ∃ entry, session_models (self st') !! name = Some entry
                 ∧ wraps_download objs d (storage_path (self st)) name entry.
Proof.
  unfold update_model_files. unfold mbind at 1, M_bind at 1.
  destruct (_get_list_of_available_models st) as [[e|models] st1] eqn:Hlist; [done|].
  apply available_models_effect in Hlist as (Hs1 & Hsrv1 & _ & _ & Hc1 & Hmodels).
  destruct (Hmodels _ eq_refl) as (d & objs & Hd & Hobjs & Hnodup & _ & Hin).
  intros Hloop.
  apply (update_loop_returns _ _ _ d objs) in Hloop as [Hreq Hall];
    [|by rewrite Hs1|by rewrite Hs1, Hsrv1].
  rewrite Hs1 in *. rewrite Hd in Hc1.
  exists d, objs, models. split_and!; try done.
  unfold requests in Hreq. by rewrite Hreq, Hc1, <- app_assoc.
Qed.

(** X13: making the directory of a model twice is making it once: when
    [_makedir] returns, the directory exists, nothing else has changed, and
    a second call returns without changing anything. *)
Theorem makedir_is_idempotent (st st' : State) currency compare :
  _makedir currency compare st = (inr tt, st') →
  let path := joinpath (storage_path (self st)) (currency +:+ "_" +:+ compare) in
  path ∈ dirs (world st')
  ∧ (∀ other, other ≠ path → other ∈ dirs (world st') ↔ other ∈ dirs (world st))
  ∧ files (world st') = files (world st)
  ∧ calls (world st') = calls (world st)
  ∧ self st' = self st
  ∧ _makedir currency compare st' = (inr tt, st').
Proof.
  unfold _makedir, mkdir_exist_ok. run.
  set (path := joinpath (storage_path (self st)) (currency +:+ "_" +:+ compare)).
  destruct (bool_decide (path ∈ dirs (world st))) eqn:Hthere.
  { intros [= <-]. apply bool_decide_eq_true in Hthere.
    split_and!; try done. by rewrite (bool_decide_eq_true_2 _ Hthere). }
  destruct (bool_decide (is_Some (files (world st) !! path))); [done|].
  destruct (bool_decide (storage_path (self st) ∈ dirs (world st)));
    [|by destruct (bool_decide (is_Some (files (world st) !! storage_path (self st))))].
  intros [= <-]. simpl. split_and!; try done.
  - apply elem_of_union_l. by apply elem_of_singleton.
  - intros other Hne. rewrite elem_of_union, elem_of_singleton. tauto.
  - rewrite bool_decide_eq_true_2; [done|].
    apply elem_of_union_l. by apply elem_of_singleton.
Qed.

(** X14: a server started without its storage directory: on an empty disk, if
    the bucket lists at least one object under the date and the listed
    names are well formed, the constructor raises [FileNotFoundError] for
    the directory of one of the listed models. *)
Theorem init_fails_without_storage_directory (b : string) (w : World) objs :
  server w !! b = Some objs →
  dirs w = ∅ →
  files w = ∅ →
  let d := strftime_Ymd (clock w) in
  objects_with_prefix objs d ≠ [] →
  Forall (fun o => count "/" o ≠ 0) (objects_with_prefix objs d) →
  (∀ name, listed objs d name → count "_" name = 1) →
  ∃ name,
    listed objs d name
    ∧ (__init__ b w).1 = inl (FileNotFoundError (joinpath "models" name)).
Proof.
  intros Hb Hdirs Hfiles d Hlisting Hslash Hnames.
  rewrite init_unfold. cbv zeta.
  rewrite bool_decide_eq_true_2 by (by eexists). fold d.
  destruct (second_components_exist _ Hslash) as [names Hmap].
  pose proof Hmap as Hpairs. apply mapM_Some in Hpairs.
  unfold update_model_files. unfold mbind at 1, M_bind at 1.
  rewrite (available_models_run _ d objs) by done. cbv zeta. rewrite Hmap.
  destruct (list_of_set names) as [|model models] eqn:Hset.
  { destruct (objects_with_prefix objs d) as [|o os] eqn:Hos; [done|].
    apply Forall2_cons_inv_l in Hpairs as (name & names' & Hname & _ & ->).
    assert (name ∈ list_of_set (name :: names')) as Hin
      by (apply list_of_set_elem_of, list_elem_of_here).
    rewrite Hset in Hin. by apply elem_of_nil in Hin. }
  assert (listed objs d model) as Hmodel.
  { assert (model ∈ names) as Hin
      by (apply list_of_set_elem_of; rewrite Hset; apply list_elem_of_here).
    apply list_elem_of_lookup in Hin as [i Hi].
    destruct (Forall2_lookup_r _ _ _ _ _ Hpairs Hi) as (o & Ho & Hsecond).
    exists o. split; [by eapply list_elem_of_lookup_2|done]. }
  exists model. split; [done|].
  destruct (unpack2_split_ok "_" model (Hnames _ Hmodel))
    as (currency & compare & Hun & Heq & _).
  change (String "_" compare) with ("_" +:+ compare) in Heq.
  cbn [for_each]. unfold mbind at 1, M_bind at 1. unfold mbind at 1, M_bind at 1.
  unfold lift at 1. rewrite Hun.
  unfold mbind at 1, M_bind at 1.
  unfold _download_files, _makedir, mkdir_exist_ok. run.
  rewrite Hdirs, Hfiles, lookup_empty.
  rewrite !bool_decide_eq_false_2;
    [by rewrite Heq|by intros [? ?]|apply not_elem_of_empty|by intros [? ?]
    |apply not_elem_of_empty].
Qed.

(** X15: predictions after construction: the loader answers for a model exactly
    when the bucket lists it under the date of construction; for any other
    name it raises [ValueError]. *)
Theorem predictions_after_construction (b : string) (w : World) (st : State) :
  __init__ b w = (inr tt, st) →
  ∃ objs,
    server (world st) !! b = Some objs
    ∧ ∀ name sample,
        (listed objs (strftime_Ymd (clock w)) name →
         ∃ entry,
           session_models (self st) !! name = Some entry
           ∧ get_predictions name sample st = (onnx_predict (model entry) sample, st))
        ∧ (¬ listed objs (strftime_Ymd (clock w)) name →
           get_predictions name sample st
           = (inl (ValueError "Model not found in session."), st)).
Proof.
  intros Hrun. apply init_returns in Hrun as (objs & Hobjs & Honly & Hall).
  exists objs. split; [done|]. intros name sample. rewrite get_predictions_effect. split.
  - intros Hl. destruct (Hall _ Hl) as [entry Hentry]. exists entry. by rewrite Hentry.
  - intros Hnot. destruct (session_models (self st) !! name) as [entry|] eqn:Hentry; [|done].
    by destruct Hnot; eapply Honly.
Qed.

End MoreLoaderFacts.

Lemma available_models_are_second_components_witness :
  ∃ models,
    (ModelLoader._get_list_of_available_models Scenario.fresh).1 = inr models
    ∧ NoDup models
    ∧ ∀ name, name ∈ models ↔
        ∃ o, o ∈ objects_with_prefix Demo.objects "2026-11-03"
             ∧ split "/" o !! 1 = Some name.
Proof.
  destruct (available_models_are_second_components Scenario.fresh
              "2026-11-03" Demo.objects) as (_ & _ & Hok).
  - reflexivity.
  - vm_cast_no_check (eq_refl (Some Demo.objects)).
  - apply Hok. apply (bool_decide_unpack _). vm_compute. exact I.
Defined.


Lemma download_without_scaler_witness :
  (ModelLoader._download_files "BTC" "USDT" Scenario.half_uploaded).1
  = inl (S3Error "NoSuchKey").
Proof.
  pose proof (download_without_scaler Scenario.half_uploaded "BTC" "USDT"
                "2026-11-03"
                (<["2026-11-03/BTC_USDT/model.onnx" := "onnx-btc"]> ∅) "onnx-btc") as Hrun.
  cbv zeta in Hrun. rewrite Hrun; [reflexivity|..].
  - apply (bool_decide_unpack _). vm_compute. exact I.
  - apply (bool_decide_unpack _). vm_compute. exact I.
  - apply (bool_decide_unpack _). vm_compute. exact I.
  - reflexivity.
  - vm_cast_no_check
      (eq_refl (Some (<["2026-11-03/BTC_USDT/model.onnx" := "onnx-btc"]> ∅ : gmap string Blob))).
  - vm_cast_no_check (eq_refl (Some ("onnx-btc" : Blob))).
  - vm_cast_no_check (eq_refl (@None Blob)).
Defined.

Lemma update_keeps_unlisted_entries_witness :
  ModelLoader.session_models
    (ModelLoader.self (ModelLoader.update_model_files Scenario.stale).2) !! "ETH_USDT"
  = Some (ModelLoader.mkEntry ("onnx-eth", "pkl-eth")).
Proof.
  rewrite (update_keeps_unlisted_entries Scenario.stale "2026-11-03" Demo.objects).
  - vm_compute. reflexivity.
  - reflexivity.
  - vm_cast_no_check (eq_refl (Some Demo.objects)).
  - apply not_listed. apply (bool_decide_unpack _). vm_compute. exact I.
Defined.

Lemma init_session_keys_are_the_listed_names_witness :
  "BTC_USDT" ∈ dom (ModelLoader.session_models
                      (ModelLoader.self (ModelLoader.__init__ "make-us-rich" Demo.world).2)).
Proof.
  destruct (init_session_keys_are_the_listed_names "make-us-rich" Demo.world
              (ModelLoader.__init__ "make-us-rich" Demo.world).2)
    as (objs & Hobjs & Hkeys).
  { apply run_outcome. vm_compute. reflexivity. }
  assert (server (ModelLoader.world (ModelLoader.__init__ "make-us-rich" Demo.world).2)
          !! "make-us-rich" = Some Demo.objects) as Hdemo.
  { vm_cast_no_check (eq_refl (Some Demo.objects)). }
  rewrite Hdemo in Hobjs. injection Hobjs as <-.
  apply Hkeys. exists "2026-11-03/BTC_USDT/model.onnx". split.
  - apply (bool_decide_unpack _). vm_compute. exact I.
  - vm_compute. reflexivity.
Defined.

Lemma init_with_nothing_listed_witness :
  (ModelLoader.__init__ "another-bucket" Demo.world).1 = inr tt.
Proof.
  rewrite (init_with_nothing_listed "another-bucket" Demo.world);
    [reflexivity|vm_compute; reflexivity|].
  intros objs Hobjs. vm_compute in Hobjs. discriminate.
Defined.

Lemma update_downloads_each_listed_model_once_witness :
  ∃ models,
    NoDup models
    ∧ calls (ModelLoader.world (ModelLoader.update_model_files Scenario.fresh).2)
      = ListObjects "make-us-rich" "2026-11-03" true
        :: concat (LoaderSpec.downloads "make-us-rich" "2026-11-03" "models" <$> models).
Proof.
  destruct (update_downloads_each_listed_model_once Scenario.fresh
              (ModelLoader.update_model_files Scenario.fresh).2)
    as (d & objs & models & Hd & _ & Hnodup & _ & Hcalls & _).
  { apply run_outcome. vm_compute. reflexivity. }
  injection Hd as <-. exists models. split; [exact Hnodup|exact Hcalls].
Defined.

Lemma makedir_is_idempotent_witness :
  ModelLoader._makedir "BTC" "USDT" (ModelLoader._makedir "BTC" "USDT" Scenario.fresh).2
  = (inr tt, (ModelLoader._makedir "BTC" "USDT" Scenario.fresh).2).
Proof.
  apply (makedir_is_idempotent Scenario.fresh).
  apply run_outcome. vm_compute. reflexivity.
Defined.

Lemma init_fails_without_storage_directory_witness :
  ∃ name,
    (ModelLoader.__init__ "make-us-rich" (ModelLoader.world Scenario.no_storage)).1
    = inl (FileNotFoundError (joinpath "models" name)).
Proof.
  destruct (init_fails_without_storage_directory "make-us-rich"
              (ModelLoader.world Scenario.no_storage) Demo.objects)
    as (name & _ & Hraise).
  - vm_cast_no_check (eq_refl (Some Demo.objects)).
  - reflexivity.
  - reflexivity.
  - vm_compute. discriminate.
  - apply (bool_decide_unpack _). vm_compute. exact I.
  - intros name (o & Ho & Hsecond).
    assert (Forall (fun o => ∀ name, split "/" o !! 1 = Some name → count "_" name = 1)
              (objects_with_prefix Demo.objects "2026-11-03")) as Hall.
    { vm_compute. repeat constructor; intros ? [= <-]; reflexivity. }
    rewrite Forall_forall in Hall. by eapply Hall.
  - by exists name.
Defined.

Lemma predictions_after_construction_witness :
  ∃ entry,
    ModelLoader.get_predictions "BTC_USDT" 41
      (ModelLoader.__init__ "make-us-rich" Demo.world).2
    = (onnx_predict (ModelLoader.model entry) 41,
       (ModelLoader.__init__ "make-us-rich" Demo.world).2).
Proof.
  destruct (predictions_after_construction "make-us-rich" Demo.world
              (ModelLoader.__init__ "make-us-rich" Demo.world).2)
    as (objs & Hobjs & Hanswer).
  { apply run_outcome. vm_compute. reflexivity. }
  assert (server (ModelLoader.world (ModelLoader.__init__ "make-us-rich" Demo.world).2)
          !! "make-us-rich" = Some Demo.objects) as Hdemo.
  { vm_cast_no_check (eq_refl (Some Demo.objects)). }
  rewrite Hdemo in Hobjs. injection Hobjs as <-.
  destruct (Hanswer "BTC_USDT" 41) as [Hlisted _].
  destruct Hlisted as (entry & _ & Hrun).
  - exists "2026-11-03/BTC_USDT/model.onnx". split.
    + apply (bool_decide_unpack _). vm_compute. exact I.
    + vm_compute. reflexivity.
  - by exists entry.
Defined.
